(** * CloudIoTPy: store-and-forward telemetry, verified against its specification

    A shallow embedding of the offline buffering subsystem of CloudIoTPy
    (the two [OfflineStorage] backends, [OfflineStorageService],
    [IoTManager.send_telemetry], the providers' [reconnect] loop and the
    [handle_exceptions] decorator) and of what the manager does around it
    (the lookups of [ConfigLoader], the flattening of
    [TelemetryPreprocessor], [IoTManager.connect], [reconnect] and
    [_handle_sensor_data]), followed by the properties the specification
    states about them (Part II) and by further properties of the code
    (Part III).

    Conventions of the embedding
    - Python values that travel as telemetry are JSON values ([Py.value]);
      numbers are the integers (no floats), dictionaries are finite maps
      keyed by strings, so dictionary equality ignores key order as in Python.
    - A piece of text handed to [json.loads] is represented by what the
      decoder makes of it ([Py.cell]): the encoding of a value, or text that
      does not decode.
    - Every decorated method is a state transformer that may raise
      ([Py.M]); the decorator is [Py.handle_exceptions].
    - Locks are not modelled: every operation runs to completion.
    - Logging is not modelled. *)

From Stdlib Require Import ZArith QArith Qpower Lia Lqa Ascii.
From stdpp Require Import gmap strings list fin_maps sorting.

#[local] Set Warnings "-register-all".
#[local] Open Scope Z_scope.

(* ================================================================== *)
(** * Part I: the program *)
(* ================================================================== *)

(** ** Python values, exceptions and the decorator *)

Module Py.

(** JSON-serialisable Python values. *)
Inductive value :=
  | VNone
  | VBool (b : bool)
  | VInt (z : Z)
  | VStr (s : string)
  | VList (l : list value)
  | VDict (d : gmap string value).

(** [differ eqb o1 o2] marks a key on which two dictionaries disagree. *)
Definition differ {A B} (eqb : A → B → bool)
    (o1 : option A) (o2 : option B) : option unit :=
  match o1, o2 with
  | Some a, Some b => if eqb a b then None else Some ()
  | None, None => None
  | _, _ => Some ()
  end.

(** Python's [==] on JSON values: [True == 1], lists compare pointwise,
    dictionaries compare key by key. *)
Fixpoint py_eq (a b : value) {struct a} : bool :=
  match a, b with
  | VNone, VNone => true
  | VBool x, VBool y => bool_decide (x = y)
  | VBool x, VInt y | VInt y, VBool x => bool_decide (Z.b2z x = y)
  | VInt x, VInt y => bool_decide (x = y)
  | VStr x, VStr y => bool_decide (x = y)
  | VList x, VList y =>
      (fix go (x y : list value) {struct x} : bool :=
         match x, y with
         | [], [] => true
         | a :: x', b :: y' => py_eq a b && go x' y'
         | _, _ => false
         end) x y
  | VDict x, VDict y => bool_decide (merge (differ py_eq) x y = ∅)
  | _, _ => false
  end.

(** Number of constructors of a value, the measure for induction. *)
Fixpoint vsize (v : value) : nat :=
  match v with
  | VList l => S (foldr (λ v n, vsize v + n)%nat 0%nat l)
  | VDict d => S (map_fold (λ _ v n, vsize v + n)%nat 0%nat d)
  | _ => 1%nat
  end.

(** [x in l] *)
Definition py_in (x : value) (l : list value) : bool :=
  existsb (λ e, py_eq e x) l.

(** Exception classes that occur in the modelled code. *)
Inductive exn :=
  | ConnectionError
  | ValueError
  | JSONDecodeError
  | FileNotFoundError
  | PermissionError
  | IsADirectoryError
  | OperationalError
  | TypeError
  | AttributeError
  | BotoClientError
  | MQTTException
  | ClientError.

#[global] Instance exn_eq_dec : EqDecision exn.
Proof. solve_decision. Defined.

(** [isinstance e c]: the class of [e] is [c] or derives from it.
    [json.JSONDecodeError] derives from [ValueError]; the other classes
    above are unrelated to one another. *)
Definition isinstance (e c : exn) : bool :=
  bool_decide (e = c) || bool_decide (e = JSONDecodeError ∧ c = ValueError).

Inductive result (A : Type) :=
  | Ok (a : A)
  | Raise (e : exn).
Arguments Ok {A} a.
Arguments Raise {A} e.

(** Methods: state transformers that return or raise.  What was written
    before an exception stays written. *)
Definition M (S A : Type) : Type := S → result A * S.

#[global] Instance M_ret {S} : MRet (M S) := λ A a s, (Ok a, s).
#[global] Instance M_bind {S} : MBind (M S) := λ A B f m s,
  match m s with
  | (Ok a, s') => f a s'
  | (Raise e, s') => (Raise e, s')
  end.

Definition raise {S A} (e : exn) : M S A := λ s, (Raise e, s).
Definition get {S} : M S S := λ s, (Ok s, s).
Definition put {S} (s : S) : M S unit := λ _, (Ok (), s).

(** [try: body except Exception: handler] *)
Definition try_except {S A} (body : M S A) (handler : M S A) : M S A :=
  λ s, match body s with
       | (Ok a, s') => (Ok a, s')
       | (Raise _, s') => handler s'
       end.

(** Optional imports of [common/exceptions.py]: each name is bound to the
    class when the import succeeds and to [None] when it raises
    [ImportError]. *)
Record imports := {
  azure_installed : bool;
  paho_installed : bool;
  botocore_installed : bool
}.

Definition ClientError_ (env : imports) : option exn :=
  if azure_installed env then Some ClientError else None.
Definition MQTTException_ (env : imports) : option exn :=
  if paho_installed env then Some MQTTException else None.
Definition BotoClientError_ (env : imports) : option exn :=
  if botocore_installed env then Some BotoClientError else None.

(** The clauses of [wrapper], tried in order on a raised [e].  A clause
    [except C] whose [C] is [None] raises [TypeError] as soon as an
    exception reaches it. *)
Definition wrapper_except {A} (env : imports) (default_return_value : A)
    (e : exn) : result A :=
  if isinstance e ConnectionError then Ok default_return_value
  else if isinstance e ValueError then Ok default_return_value
  else if isinstance e FileNotFoundError then Ok default_return_value
  else if isinstance e PermissionError then Ok default_return_value
  else match BotoClientError_ env with
       | None => Raise TypeError
       | Some boto =>
           if isinstance e boto then Ok default_return_value
           else match MQTTException_ env with
                | None => Raise TypeError
                | Some mqtt =>
                    if isinstance e mqtt then Ok default_return_value
                    else
                      (* except Exception: both branches of the Azure
                         test return the default *)
                      match ClientError_ env with
                      | Some azure =>
                          if isinstance e azure then Ok default_return_value
                          else Ok default_return_value
                      | None => Ok default_return_value
                      end
                end
       end.

(** [@handle_exceptions(default_return_value=...)] *)
Definition handle_exceptions {S A} (env : imports) (default_return_value : A)
    (func : M S A) : M S A :=
  λ s, match func s with
       | (Ok a, s') => (Ok a, s')
       | (Raise e, s') => (wrapper_except env default_return_value e, s')
       end.

(** Text given to [json.loads]: the encoding of a value, or text the
    decoder rejects. *)
Inductive cell :=
  | Enc (v : value)
  | Bad (raw : string).

Definition json_dumps (v : value) : cell := Enc v.

Definition json_loads (c : cell) : result value :=
  match c with
  | Enc v => Ok v
  | Bad _ => Raise JSONDecodeError
  end.

Definition is_dict (v : value) : bool :=
  match v with
  | VDict _ => true
  | _ => false
  end.

(** [obj[key] = x] *)
Definition setitem (obj : value) (key : string) (x : value) : result value :=
  match obj with
  | VDict d => Ok (VDict (<[key := x]> d))
  | _ => Raise TypeError
  end.

(** [obj.get(key)]; [None] of the result is Python's [None]. *)
Definition dict_get (obj : value) (key : string) : result (option value) :=
  match obj with
  | VDict d => Ok (d !! key)
  | _ => Raise AttributeError
  end.

(** [list.remove(x)]: drops the first item equal to [x]. *)
Fixpoint list_remove (x : value) (l : list value) : result (list value) :=
  match l with
  | [] => Raise ValueError
  | e :: l' =>
      if py_eq e x then Ok l'
      else match list_remove x l' with
           | Ok r => Ok (e :: r)
           | Raise err => Raise err
           end
  end.

End Py.
Export Py.

(** ** offline_storage_json.py *)

Module JSONOfflineStorage.

(** Content of the file at [self.path], as [json.load] sees it: an array
    written element by element, or some other text. *)
Inductive text :=
  | Array (cells : list cell)
  | Scalar (c : cell).

(** What the file system holds at [self.path]. *)
Inductive node :=
  | Missing
  | Directory
  | Regular (t : text).

(** The object behind a variable of type list: a list built by the
    current call, or the one list object that
    [@handle_exceptions(default_return_value=[])] created when
    [_load_entire_list] was decorated and returns on every failure. *)
Inductive listref :=
  | Fresh (l : list value)
  | Shared.

Record state := {
  path : node;
  load_default : list value   (* content of the [Shared] list *)
}.

Definition deref (r : listref) (s : state) : list value :=
  match r with
  | Fresh l => l
  | Shared => load_default s
  end.

(** Assignment through a list variable: a [Fresh] list is local, the
    [Shared] one lives in the state. *)
Definition assign (r : listref) (l : list value) : M state listref :=
  match r with
  | Fresh _ => mret (Fresh l)
  | Shared => λ s, (Ok Shared, {| path := path s; load_default := l |})
  end.

(** [json.load(f)]: an array decodes when each of its elements does. *)
Definition json_load (t : text) : result value :=
  match t with
  | Scalar c => json_loads c
  | Array cells =>
      match mapM (λ c, match json_loads c with
                       | Ok v => Some v
                       | Raise _ => None
                       end) cells with
      | Some l => Ok (VList l)
      | None => Raise JSONDecodeError
      end
  end.

(** [json.dump(all_data, f)] *)
Definition json_dump (all_data : list value) : text :=
  Array (json_dumps <$> all_data).

Section Methods.
Variable env : imports.

Definition _load_entire_list : M state listref :=
  handle_exceptions env Shared (λ s,
    match path s with
    | Missing => (Ok (Fresh []), s)                 (* not self.path.exists() *)
    | Directory => (Raise IsADirectoryError, s)     (* self.path.open("r") *)
    | Regular t =>
        match json_load t with
        | Ok (VList data) => (Ok (Fresh data), s)
        | Ok _ => (Ok (Fresh []), s)
        | Raise e => (Raise e, s)
        end
    end).

Definition _save_entire_list (all_data : listref) : M state unit :=
  handle_exceptions env () (λ s,
    match deref all_data s with
    | [] =>
        match path s with
        | Missing => (Ok (), s)
        | Regular _ =>
            (Ok (), {| path := Missing; load_default := load_default s |})
        | Directory => (Raise IsADirectoryError, s)  (* self.path.unlink() *)
        end
    | data =>
        match path s with
        | Directory => (Raise IsADirectoryError, s)  (* self.path.open("w") *)
        | _ => (Ok (), {| path := Regular (json_dump data);
                          load_default := load_default s |})
        end
    end).

Definition add_messages (messages : list value) : M state unit :=
  handle_exceptions env ()
    (match messages with
     | [] => mret ()
     | _ =>
         current ← _load_entire_list;
         s ← get;
         current ← assign current (deref current s ++ messages);
         _save_entire_list current
     end).

(** The value returned to the caller is the content of the list at the
    time of the return. *)
Definition load_messages (limit : Z) : M state (list value) :=
  handle_exceptions env []
    (current ← _load_entire_list;
     s ← get;
     if limit <=? 0 then mret (deref current s)
     else mret (take (Z.to_nat limit) (deref current s))).

(** The [for msg in messages] loop of [remove_messages]. *)
Fixpoint remove_each (messages current : list value) (removed_count : nat)
    : result (list value * nat) :=
  match messages with
  | [] => Ok (current, removed_count)
  | msg :: rest =>
      if py_in msg current then
        match list_remove msg current with
        | Ok current' => remove_each rest current' (S removed_count)
        | Raise e => Raise e
        end
      else remove_each rest current removed_count
  end.

Definition remove_messages (messages : list value) : M state nat :=
  handle_exceptions env 0%nat
    (match messages with
     | [] => mret 0%nat
     | _ =>
         current ← _load_entire_list;
         s ← get;
         match remove_each messages (deref current s) 0 with
         | Ok (l, removed_count) =>
             current ← assign current l;
             _ ← _save_entire_list current;
             mret removed_count
         | Raise e => raise e
         end
     end).

End Methods.

(** [JSONOfflineStorage(path)] touches nothing on disk. *)
Definition __init__ : M state unit := mret ().

(** *** Vocabulary of the statements *)

(** The path can be read and written as a file: it is not a directory. *)
Definition usable (s : state) : Prop := path s ≠ Directory.

(** [_load_entire_list] came back with the [Shared] list. *)
Definition load_fails (s : state) : bool :=
  match path s with
  | Missing => false
  | Directory => true
  | Regular t => match json_load t with Raise _ => true | Ok _ => false end
  end.

(** The records the backend holds: the list that [_load_entire_list]
    evaluates to (lemma [load_messages_held]). *)
Definition held (s : state) : list value :=
  match path s with
  | Missing => []
  | Directory => load_default s
  | Regular t =>
      match json_load t with
      | Ok (VList data) => data
      | Ok _ => []
      | Raise _ => load_default s
      end
  end.

(** The calls [add_messages([m1])], ..., [add_messages([mn])], one after
    the other. *)
Fixpoint add_each (env : imports) (ms : list value) : M state unit :=
  match ms with
  | [] => mret ()
  | m :: rest => _ ← add_messages env [m]; add_each env rest
  end.

(** The state in which [_save_entire_list] leaves a usable path after
    the list that was loaded has become [l]. *)
Definition written (s : state) (l : list value) : state :=
  {| path := match l with [] => Missing | _ => Regular (json_dump l) end;
     load_default := if load_fails s then l else load_default s |}.

End JSONOfflineStorage.

(** ** offline_storage_sqlite.py *)

Module SQLiteOfflineStorage.

(** Table [offline_messages (id INTEGER PRIMARY KEY AUTOINCREMENT,
    data TEXT NOT NULL)]: its rows in rowid order, and the largest rowid
    ever handed out (what [sqlite_sequence] records). *)
Record table := {
  rows : list (Z * cell);
  seq : Z
}.

(** The database file at [self.path]: absent, or present with or
    without the table. *)
Inductive disk :=
  | NoFile
  | DbFile (t : option table).

Definition empty_table : table := {| rows := []; seq := 0 |}.

(** [sqlite3.connect(self.path)] creates the file when it is absent. *)
Definition connect : M disk unit :=
  λ d, (Ok (), match d with NoFile => DbFile None | _ => d end).

(** [CREATE TABLE IF NOT EXISTS offline_messages ...] *)
Definition create_table : M disk unit :=
  λ d, (Ok (), match d with
               | DbFile (Some t) => DbFile (Some t)
               | _ => DbFile (Some empty_table)
               end).

(** [INSERT INTO offline_messages (data) VALUES (?)] *)
Definition insert (raw : cell) : M disk unit :=
  λ d, match d with
       | DbFile (Some t) =>
           (Ok (), DbFile (Some {| rows := rows t ++ [(seq t + 1, raw)];
                                   seq := seq t + 1 |}))
       | _ => (Raise OperationalError, d)
       end.

(** [SELECT id, data FROM offline_messages ORDER BY id ASC [LIMIT ?]];
    the [LIMIT] form is used when [limit > 0]. *)
Definition select (limit : Z) : M disk (list (Z * cell)) :=
  λ d, match d with
       | DbFile (Some t) =>
           (Ok (if 0 <? limit then take (Z.to_nat limit) (rows t)
                else rows t), d)
       | _ => (Raise OperationalError, d)
       end.

(** [DELETE FROM offline_messages WHERE id IN (...)]; returns
    [cur.rowcount]. *)
Definition delete (row_ids : list Z) : M disk nat :=
  λ d, match d with
       | DbFile (Some t) =>
           let kept := filter (λ r, r.1 ∉ row_ids) (rows t) in
           (Ok (length (rows t) - length kept)%nat,
            DbFile (Some {| rows := kept; seq := seq t |}))
       | _ => (Raise OperationalError, d)
       end.

(** One turn of the decoding loop of [load_messages]:
    [parsed = json.loads(raw_json); parsed["_db_id"] = row_id]. *)
Definition parse_row (row : Z * cell) : result value :=
  match json_loads row.2 with
  | Ok parsed => setitem parsed "_db_id" (VInt row.1)
  | Raise e => Raise e
  end.

(** The whole loop; a row whose turn raises is skipped. *)
Fixpoint parse_rows (rows : list (Z * cell)) : list value :=
  match rows with
  | [] => []
  | row :: rest =>
      match parse_row row with
      | Ok parsed => parsed :: parse_rows rest
      | Raise _ => parse_rows rest
      end
  end.

(** The loop of [remove_messages] that fills [row_ids].  A [bool] is an
    [int] in Python and is bound as 0 or 1. *)
Fixpoint collect_row_ids (messages : list value) (row_ids : list Z)
    : result (list Z) :=
  match messages with
  | [] => Ok row_ids
  | msg :: rest =>
      match dict_get msg "_db_id" with
      | Raise e => Raise e
      | Ok (Some (VInt z)) => collect_row_ids rest (row_ids ++ [z])
      | Ok (Some (VBool b)) => collect_row_ids rest (row_ids ++ [Z.b2z b])
      | Ok _ => collect_row_ids rest row_ids
      end
  end.

Section Methods.
Variable env : imports.

Definition _init_db : M disk unit :=
  handle_exceptions env () (_ ← connect; create_table).

Definition __init__ : M disk unit := _init_db.

(** The [for msg in messages] loop of [add_messages]: a message whose
    insertion raises is skipped. *)
Fixpoint insert_each (messages : list value) : M disk unit :=
  match messages with
  | [] => mret ()
  | msg :: rest =>
      _ ← try_except (insert (json_dumps msg)) (mret ());
      insert_each rest
  end.

Definition add_messages (messages : list value) : M disk unit :=
  handle_exceptions env ()
    (match messages with
     | [] => mret ()
     | _ => _ ← connect; insert_each messages
     end).

Definition load_messages (limit : Z) : M disk (list value) :=
  handle_exceptions env []
    (_ ← connect;
     rows ← select limit;
     mret (parse_rows rows)).

Definition remove_messages (messages : list value) : M disk nat :=
  handle_exceptions env 0%nat
    (match messages with
     | [] => mret 0%nat
     | _ =>
         match collect_row_ids messages [] with
         | Raise e => raise e
         | Ok [] => mret 0%nat
         | Ok row_ids => _ ← connect; delete row_ids
         end
     end).

End Methods.

(** *** Vocabulary of the statements *)

Definition rows_of (d : disk) : list (Z * cell) :=
  match d with
  | DbFile (Some t) => rows t
  | _ => []
  end.

(** Rowids are distinct, ascending, and none exceeds [seq]. *)
Definition wf_table (t : table) : Prop :=
  StronglySorted Z.lt (rows t).*1 ∧ Forall (λ i, i ≤ seq t) (rows t).*1.

(** The database file exists and has its table. *)
Definition usable (d : disk) : Prop :=
  match d with
  | DbFile (Some t) => wf_table t
  | _ => False
  end.

(** The records a full [load_messages] yields (lemma
    [load_messages_drained]). *)
Definition drained (d : disk) : list value := parse_rows (rows_of d).

(** A stored dictionary as [load_messages] returns it. *)
Definition with_db_id (row_id : Z) (v : value) : value :=
  match v with
  | VDict d => VDict (<["_db_id" := VInt row_id]> d)
  | _ => v
  end.

(** The rows that [INSERT] makes for [messages] in turn when the largest
    rowid handed out so far is [seq], and the table after these inserts. *)
Fixpoint fresh_rows (seq : Z) (messages : list value) : list (Z * cell) :=
  match messages with
  | [] => []
  | msg :: rest => (seq + 1, json_dumps msg) :: fresh_rows (seq + 1) rest
  end.

Definition inserted (t : table) (messages : list value) : table :=
  {| rows := rows t ++ fresh_rows (seq t) messages;
     seq := seq t + Z.of_nat (length messages) |}.

(** The rowids that [remove_messages] binds for the given messages. *)
Definition row_ids_of (messages : list value) : list Z :=
  match collect_row_ids messages [] with
  | Ok row_ids => row_ids
  | Raise _ => []
  end.

End SQLiteOfflineStorage.

(** ** iot_client.py: the endpoint interface *)

(** The part of [IIoTClient] that the buffer service and the manager use.
    An endpoint reports the outcome of [send_telemetry] as a boolean. *)
Class IIoTClient (E : Type) := {
  is_connected : E → bool;
  send_telemetry : E → value → bool * E
}.

(** ** offline_storage_service.py *)

Module OfflineStorageService.

(** [self._storage] is one of the two backends; calls on it dispatch on
    its class. *)
Inductive storage :=
  | JSON (s : JSONOfflineStorage.state)
  | SQLite (d : SQLiteOfflineStorage.disk).

Definition dispatch {A} (json : M JSONOfflineStorage.state A)
    (sqlite : M SQLiteOfflineStorage.disk A) : M storage A :=
  λ b, match b with
       | JSON s => let (r, s') := json s in (r, JSON s')
       | SQLite d => let (r, d') := sqlite d in (r, SQLite d')
       end.

Definition add_messages (env : imports) (messages : list value) : M storage unit :=
  dispatch (JSONOfflineStorage.add_messages env messages)
           (SQLiteOfflineStorage.add_messages env messages).

Definition load_messages (env : imports) (limit : Z) : M storage (list value) :=
  dispatch (JSONOfflineStorage.load_messages env limit)
           (SQLiteOfflineStorage.load_messages env limit).

Definition remove_messages (env : imports) (messages : list value) : M storage nat :=
  dispatch (JSONOfflineStorage.remove_messages env messages)
           (SQLiteOfflineStorage.remove_messages env messages).

(** The service, the client attached to it, and a record of every message
    handed to the client's [send_telemetry], oldest first.  [wire] is
    not a field of the Python object: it is kept to state what was sent. *)
Record service (E : Type) := {
  _storage : option storage;
  _client : option E;
  wire : list value
}.
Arguments _storage {E} _.
Arguments _client {E} _.
Arguments wire {E} _.

(** *** Vocabulary of the statements *)

Definition usable (b : storage) : Prop :=
  match b with
  | JSON s => JSONOfflineStorage.usable s
  | SQLite d => SQLiteOfflineStorage.usable d
  end.

(** What [load_messages(0)] yields, oldest first. *)
Definition drained (b : storage) : list value :=
  match b with
  | JSON s => JSONOfflineStorage.held s
  | SQLite d => SQLiteOfflineStorage.drained d
  end.

(** The messages the store holds, as they were enqueued. *)
Definition payloads (b : storage) : list value :=
  match b with
  | JSON s => JSONOfflineStorage.held s
  | SQLite d =>
      omap (λ r : Z * cell, match json_loads r.2 with
                            | Ok v => Some v
                            | Raise _ => None
                            end) (SQLiteOfflineStorage.rows_of d)
  end.


(** Number of records in the store, decodable or not. *)
Definition stored_count (b : storage) : nat :=
  match b with
  | JSON s => length (JSONOfflineStorage.held s)
  | SQLite d => length (SQLiteOfflineStorage.rows_of d)
  end.

(** Hand [msgs] to the endpoint one after the other, whatever it
    answers; the answers in order. *)
Fixpoint deliver {E} `{IIoTClient E} (msgs : list value) (e : E)
    : list bool * E :=
  match msgs with
  | [] => ([], e)
  | msg :: rest =>
      let (sent, e') := send_telemetry e msg in
      let (answers, e'') := deliver rest e' in
      (sent :: answers, e'')
  end.

Section Methods.
Context {E : Type} `{IIoTClient E}.
Variable env : imports.

(** [self._client.send_telemetry(msg)], recorded on the wire. *)
Definition client_send (msg : value) (c : E * list value)
    : bool * (E * list value) :=
  let (sent, e') := send_telemetry c.1 msg in (sent, (e', c.2 ++ [msg])).

Definition add_message (data : value) : M (service E) unit :=
  handle_exceptions env () (λ w,
    match _storage w with
    | None => (Ok (), w)
    | Some b =>
        let (r, b') := add_messages env [data] b in
        (r, {| _storage := Some b'; _client := _client w; wire := wire w |})
    end).

(** [for msg in batch]: count the sends that succeed, stop at the first
    that fails. *)
Fixpoint send_batch (batch : list value) (success_count : nat)
    (c : E * list value) : nat * (E * list value) :=
  match batch with
  | [] => (success_count, c)
  | msg :: rest =>
      let (sent, c') := client_send msg c in
      if sent then send_batch rest (S success_count) c'
      else (success_count, c')
  end.

(** [while True] of [flush_data], on the storage, the client and the
    wire; [None] when [fuel] turns of the loop did not reach a
    [break]. *)
Fixpoint flush_loop (fuel : nat) (b : storage) (c : E * list value)
    : option (result unit * (storage * (E * list value))) :=
  match fuel with
  | O => None
  | S fuel =>
      match load_messages env 10 b with
      | (Raise x, b) => Some (Raise x, (b, c))
      | (Ok [], b) => Some (Ok (), (b, c))
      | (Ok batch, b) =>
          let (success_count, c) := send_batch batch 0 c in
          let after_remove :=
            if (0 <? success_count)%nat
            then remove_messages env (take success_count batch) b
            else (Ok 0%nat, b) in
          match after_remove with
          | (Raise x, b) => Some (Raise x, (b, c))
          | (Ok _, b) =>
              if (success_count <? length batch)%nat
              then Some (Ok (), (b, c))
              else flush_loop fuel b c
          end
      end
  end.

Definition flush_data (fuel : nat) (w : service E)
    : option (result unit * service E) :=
  match _storage w, _client w with
  | Some b, Some e =>
      if is_connected e then
        match flush_loop fuel b (e, wire w) with
        | None => None
        | Some (r, (b', (e', wire'))) =>
            let w' := {| _storage := Some b'; _client := Some e';
                         wire := wire' |} in
            match r with
            | Ok _ => Some (Ok (), w')
            | Raise x => Some (wrapper_except env () x, w')
            end
        end
      else Some (Ok (), w)
  | _, _ => Some (Ok (), w)
  end.

End Methods.

End OfflineStorageService.

(** ** iot_manager.py *)

Module IoTManager.
Import OfflineStorageService.

Section Methods.
Context {E : Type} `{IIoTClient E}.
Variable env : imports.

(** The manager's [_client] and its service's [_client] are one object;
    the manager is represented by its service. *)
Definition send_telemetry (data : value) : M (service E) bool :=
  λ w,
    match _client w with
    | None => (Raise AttributeError, w)     (* None.is_connected() *)
    | Some e =>
        if negb (is_connected e) then
          (_ ← add_message env data; mret false) w
        else
          let '(sent, (e', wire')) := client_send data (e, wire w) in
          let w' := {| _storage := _storage w; _client := Some e';
                       wire := wire' |} in
          if negb sent then
            (_ ← add_message env data; mret false) w'
          else (Ok true, w')
    end.

End Methods.

End IoTManager.

(** ** providers/aws_client.py and providers/azure_client.py: reconnect

    [AWSIoTClient.reconnect] and [AzureIoTClient.reconnect] are the same
    loop.  Time and chance are observed through a journal: every
    connection attempt and every [time.sleep] is appended to it.  Floats
    are taken as rationals. *)

Module ProviderClient.

Inductive event :=
  | Attempt (ok : bool)
  | Sleep (seconds : Q).

Record client := {
  _connected : bool;
  network : nat → bool;   (* does the n-th attempt reach the cloud? *)
  random : nat → Q;       (* the n-th value of random.random() *)
  attempts : nat;
  draws : nat;
  journal : list event
}.

Definition base_delay : Q := 2.

(** [base_delay * (2 ** (attempt - 1))] *)
Definition delay_of (attempt : Z) : Q := (base_delay * 2 ^ (attempt - 1))%Q.

(** [a + (b - a) * random()], the definition of [random.uniform(a, b)] *)
Definition uniform (a b : Q) : M client Q :=
  λ c, (Ok (a + (b - a) * random c (draws c))%Q,
        {| _connected := _connected c; network := network c;
           random := random c; attempts := attempts c;
           draws := S (draws c); journal := journal c |}).

Definition sleep (seconds : Q) : M client unit :=
  λ c, (Ok (),
        {| _connected := _connected c; network := network c;
           random := random c; attempts := attempts c;
           draws := draws c; journal := journal c ++ [Sleep seconds] |}).

(** [range(a, b)] *)
Definition py_range (a b : Z) : list Z :=
  (λ i : nat, a + Z.of_nat i) <$> seq 0 (Z.to_nat (b - a)).

Section Methods.
Variable env : imports.

(** One attempt; returns at once when already connected. *)
Definition connect : M client bool :=
  handle_exceptions env false (λ c,
    if _connected c then (Ok true, c)
    else
      let ok := network c (attempts c) in
      (Ok ok,
       {| _connected := ok; network := network c; random := random c;
          attempts := S (attempts c); draws := draws c;
          journal := journal c ++ [Attempt ok] |})).

(** [for attempt in range(1, max_retries + 1)] *)
Fixpoint reconnect_loop (todo : list Z) : M client bool :=
  match todo with
  | [] => mret false
  | attempt :: rest =>
      ok ← connect;
      if ok : bool then mret true
      else
        let delay := delay_of attempt in
        jitter ← uniform 0 (0.3 * delay);
        _ ← sleep (delay + jitter);
        reconnect_loop rest
  end.

Definition reconnect (max_retries : Z) : M client bool :=
  handle_exceptions env false
    (c ← get;
     if _connected c then mret true
     else reconnect_loop (py_range 1 (max_retries + 1))).

End Methods.

(** [delay + jitter] for the attempt numbered [attempt] when
    [random.random()] returns [u]. *)
Definition slept (attempt : Z) (u : Q) : Q :=
  (delay_of attempt + (0 + (0.3 * delay_of attempt - 0) * u))%Q.




End ProviderClient.

(** ** Sample data *)

Module Samples.
Import OfflineStorageService.

(** An endpoint that answers its sends from a script, and fails once the
    script is used up. *)
Record scripted := {
  up : bool;
  script : list bool
}.

#[global] Instance scripted_client : IIoTClient scripted := {
  is_connected e := up e;
  send_telemetry e _ :=
    match script e with
    | [] => (false, e)
    | ok :: rest => (ok, {| up := up e; script := rest |})
    end
}.

Definition all_installed : imports :=
  {| azure_installed := true; paho_installed := true;
     botocore_installed := true |}.

(** Only the import of the Azure SDK succeeds. *)
Definition azure_only : imports :=
  {| azure_installed := true; paho_installed := false;
     botocore_installed := false |}.

Definition reading (id : Z) (data : string) : value :=
  VDict (<["id" := VInt id]> (<["data" := VStr data]> ∅)).

Definition m1 : value := reading 1 "test1".
Definition m2 : value := reading 2 "test2".
Definition m3 : value := reading 3 "test3".

(** A file backend on a path where nothing exists yet. *)
Definition fresh_json : JSONOfflineStorage.state :=
  {| JSONOfflineStorage.path := JSONOfflineStorage.Missing;
     JSONOfflineStorage.load_default := [] |}.

Definition json_holding (l : list value) : JSONOfflineStorage.state :=
  {| JSONOfflineStorage.path :=
       JSONOfflineStorage.Regular (JSONOfflineStorage.json_dump l);
     JSONOfflineStorage.load_default := [] |}.

(** A file whose array has a first element that decodes and a second one
    that was cut short. *)
Definition torn_json : JSONOfflineStorage.state :=
  {| JSONOfflineStorage.path :=
       JSONOfflineStorage.Regular
         (JSONOfflineStorage.Array [Enc m1; Bad "{'id': 2, 'da"]);
     JSONOfflineStorage.load_default := [] |}.

(** A file backend whose path is an existing directory. *)
Definition json_on_directory : JSONOfflineStorage.state :=
  {| JSONOfflineStorage.path := JSONOfflineStorage.Directory;
     JSONOfflineStorage.load_default := [] |}.

(** A database whose table holds the given payloads under ids 1, 2, ... *)
Definition sqlite_holding (l : list cell) : SQLiteOfflineStorage.disk :=
  SQLiteOfflineStorage.DbFile (Some
    {| SQLiteOfflineStorage.rows :=
         zip (ProviderClient.py_range 1 (Z.of_nat (length l) + 1)) l;
       SQLiteOfflineStorage.seq := Z.of_nat (length l) |}).

(** A disconnected provider client whose network is down and whose
    random generator always returns one half. *)
Definition offline_client : ProviderClient.client :=
  {| ProviderClient._connected := false;
     ProviderClient.network := λ _, false;
     ProviderClient.random := λ _, (1 # 2)%Q;
     ProviderClient.attempts := 0;
     ProviderClient.draws := 0;
     ProviderClient.journal := [] |}.

(** The same client on a network that comes back for the third attempt. *)
Definition recovering_client : ProviderClient.client :=
  {| ProviderClient._connected := false;
     ProviderClient.network := λ i, bool_decide (i = 2%nat);
     ProviderClient.random := λ _, (1 # 2)%Q;
     ProviderClient.attempts := 0;
     ProviderClient.draws := 0;
     ProviderClient.journal := [] |}.

Definition connected_service (b : storage) (answers : list bool)
    : service scripted :=
  {| _storage := Some b;
     _client := Some {| up := true; script := answers |};
     wire := [] |}.

End Samples.


(** ** Strings *)

Module Str.

(** [s.split(sep)] for a separator of one character; [word] is the part
    of the current field read so far. *)
Fixpoint split_from (sep : Ascii.ascii) (s word : string) : list string :=
  match s with
  | EmptyString => [word]
  | String c rest =>
      if Ascii.eqb c sep then word :: split_from sep rest EmptyString
      else split_from sep rest (word +:+ String c EmptyString)
  end.

Definition split (sep : Ascii.ascii) (s : string) : list string :=
  split_from sep s EmptyString.

(** [s.replace(old, new)] for strings of one character. *)
Fixpoint replace (old new : Ascii.ascii) (s : string) : string :=
  match s with
  | EmptyString => EmptyString
  | String c rest =>
      String (if Ascii.eqb c old then new else c) (replace old new rest)
  end.

(** [c in s] *)
Fixpoint contains (c : Ascii.ascii) (s : string) : bool :=
  match s with
  | EmptyString => false
  | String c' rest => Ascii.eqb c' c || contains c rest
  end.

(** [sep.join(l)] *)
Fixpoint join (sep : Ascii.ascii) (l : list string) : string :=
  match l with
  | [] => EmptyString
  | [w] => w
  | w :: rest => w +:+ String sep (join sep rest)
  end.

End Str.

(** ** config/config_loader.py *)

Module ConfigLoader.

(** The loop of [get_nested_value] over the keys of the path. *)
Fixpoint walk (keys : list string) (value default : Py.value) : Py.value :=
  match keys with
  | [] => value
  | key :: rest =>
      match value with
      | VDict d =>
          match d !! key with
          | Some v => walk rest v default
          | None => default                  (* key not in value *)
          end
      | _ => default                         (* not isinstance(value, dict) *)
      end
  end.

(** [local_config] is the dictionary that [load_config] stored, or the
    empty one. *)
Definition get_nested_value (path : string) (default : value)
    (local_config : value) : value :=
  walk (Str.split "."%char path) local_config default.

Section Getters.
(** [int(s)] for a string [s]: the number it spells, or [ValueError]. *)
Variable int_of_str : string → result Z.

(** [int(v)] *)
Definition int (v : value) : result Z :=
  match v with
  | VInt z => Ok z
  | VBool b => Ok (Z.b2z b)
  | VStr s => int_of_str s
  | VNone | VList _ | VDict _ => Raise TypeError
  end.

Definition get_max_retries (local_config : value) : result Z :=
  match int (get_nested_value "sensor.max_retries" (VInt 0) local_config) with
  | Ok retries => Ok (Z.max 0 retries)
  | Raise e => Raise e
  end.

End Getters.

(** *** Vocabulary of the statements *)

(** [at_path keys config v]: following [keys] from [config], one
    dictionary after the other, leads to [v]. *)
Inductive at_path : list string → value → value → Prop :=
  | at_path_nil v : at_path [] v v
  | at_path_cons key keys d inner v :
      d !! key = Some inner → at_path keys inner v →
      at_path (key :: keys) (VDict d) v.

End ConfigLoader.

(** ** preprocessor/telemetry_preprocessor.py *)

Module TelemetryPreprocessor.

(** A dictionary as [flatten_dict] walks it: its entries in the order of
    iteration, each a nested dictionary or some other value. *)
Inductive tree :=
  | Leaf (v : value)
  | Node (entries : list (string * tree)).

(** [k = k.replace(".", "_")] and
    [new_key = f"{parent_key}_{k}" if parent_key else k] *)
Definition new_key (parent_key k : string) : string :=
  let k := Str.replace "."%char "_"%char k in
  match parent_key with
  | EmptyString => k
  | _ => parent_key +:+ "_" +:+ k
  end.

(** One turn of [for k, v in d.items()], given what [flatten_dict]
    returns on a nested dictionary. *)
Definition turn (flatten_dict : tree → string → gmap string value)
    (parent_key : string) (items : gmap string value) (entry : string * tree)
    : gmap string value :=
  match entry.2 with
  | Node _ =>
      flatten_dict entry.2 (new_key parent_key entry.1) ∪ items  (* items.update *)
  | Leaf x => <[new_key parent_key entry.1 := x]> items
  end.

(** [flatten_dict(d, parent_key)]; it is called on dictionaries only. *)
Fixpoint flatten_dict (d : tree) (parent_key : string) {struct d}
    : gmap string value :=
  match d with
  | Leaf _ => ∅
  | Node entries =>
      (fix loop (entries : list (string * tree)) (items : gmap string value)
           {struct entries} : gmap string value :=
         match entries with
         | [] => items
         | (k, v) :: rest =>
             loop rest
               match v with
               | Node _ => flatten_dict v (new_key parent_key k) ∪ items
               | Leaf x => <[new_key parent_key k := x]> items
               end
         end) entries ∅
  end.

Definition _flatten_data (data : list (string * tree)) : gmap string value :=
  flatten_dict (Node data) "".

Definition should_send (data : list (string * tree)) : bool := true.

Definition preprocess_data (data : list (string * tree)) : gmap string value :=
  _flatten_data data.

(** *** Vocabulary of the statements *)

(** The keys under which [flatten_dict] files the values of [d] that are
    not dictionaries, and these values. *)
Fixpoint leaves (d : tree) (parent_key : string) {struct d}
    : list (string * value) :=
  match d with
  | Leaf x => [(parent_key, x)]
  | Node entries =>
      (fix go (entries : list (string * tree)) : list (string * value) :=
         match entries with
         | [] => []
         | (k, v) :: rest => leaves v (new_key parent_key k) ++ go rest
         end) entries
  end.

(** A dictionary without nested dictionaries and without dots in its
    keys, as a list of entries. *)
Definition plain (data : list (string * value)) : list (string * tree) :=
  prod_map id Leaf <$> data.

End TelemetryPreprocessor.

(** ** iot_manager.py: connection and sensor data *)

(** [connect] and [reconnect] of [IIoTClient] (iot_client.py). *)
Class IIoTConnection (E : Type) := {
  client_connect : M E bool;
  client_reconnect : Z → M E bool
}.

Module IoTManagerMore.
Import OfflineStorageService.

Section Methods.
Context {E : Type} `{IIoTClient E} `{IIoTConnection E}.
Variable env : imports.
Variable int_of_str : string → result Z.
(** [config.local_config] *)
Variable local_config : value.

(** [if success: self._offline_service.flush_data()], then
    [return success] *)
Definition flush_if (fuel : nat) (success : result bool) (w : service E)
    : option (result bool * service E) :=
  match success with
  | Raise x => Some (Raise x, w)
  | Ok false => Some (Ok false, w)
  | Ok true =>
      match flush_data env fuel w with
      | None => None
      | Some (Raise x, w') => Some (Raise x, w')
      | Some (Ok _, w') => Some (Ok true, w')
      end
  end.

Definition connect (fuel : nat) (w : service E)
    : option (result bool * service E) :=
  match _client w with
  | None => Some (Raise AttributeError, w)     (* None.connect() *)
  | Some e =>
      let (success, e') := client_connect e in
      flush_if fuel success
        {| _storage := _storage w; _client := Some e'; wire := wire w |}
  end.

Definition reconnect (fuel : nat) (w : service E)
    : option (result bool * service E) :=
  match ConfigLoader.get_max_retries int_of_str local_config with
  | Raise x => Some (Raise x, w)
  | Ok max_retries =>
      match _client w with
      | None => Some (Raise AttributeError, w)   (* None.reconnect(...) *)
      | Some e =>
          let (success, e') := client_reconnect max_retries e in
          flush_if fuel success
            {| _storage := _storage w; _client := Some e'; wire := wire w |}
      end
  end.

Definition _handle_sensor_data (data : list (string * TelemetryPreprocessor.tree))
    : M (service E) unit :=
  if TelemetryPreprocessor.should_send data then
    let data := VDict (TelemetryPreprocessor.preprocess_data data) in
    λ w, match IoTManager.send_telemetry env data w with
         | (Ok _, w') => (Ok (), w')
         | (Raise x, w') => (Raise x, w')
         end
  else mret ().

End Methods.

End IoTManagerMore.

(** ** Further vocabulary and sample data *)

Module More.
Import OfflineStorageService Samples.

(** A drained record without the field that [load_messages] adds, as the
    tests compare it: [msg.pop("_db_id")]. *)
Definition without_db_id (v : value) : value :=
  match v with
  | VDict d => VDict (delete "_db_id" d)
  | _ => v
  end.


(** An endpoint that accepts [n] sends. *)
Definition accepting (n : nat) : scripted :=
  {| up := true; script := replicate n true |}.

(** A table whose ten oldest rows do not decode, followed by [m1]. *)
Definition blocked_table : SQLiteOfflineStorage.table :=
  {| SQLiteOfflineStorage.rows :=
       zip (ProviderClient.py_range 1 12) (replicate 10 (Bad "?") ++ [Enc m1]);
     SQLiteOfflineStorage.seq := 11 |}.

(** [AWSIoTClient] and [AzureIoTClient] as the manager connects them. *)
Definition provider_connection (env : imports)
    : IIoTConnection ProviderClient.client :=
  {| client_connect := ProviderClient.connect env;
     client_reconnect := ProviderClient.reconnect env |}.

(** A provider client whose messages all reach the cloud while it is
    connected. *)
Definition provider_client : IIoTClient ProviderClient.client :=
  {| is_connected c := ProviderClient._connected c;
     send_telemetry c _ := (ProviderClient._connected c, c) |}.

(** A disconnected provider client on a network that is up. *)
Definition online_client : ProviderClient.client :=
  {| ProviderClient._connected := false;
     ProviderClient.network := λ _, true;
     ProviderClient.random := λ _, (1 # 2)%Q;
     ProviderClient.attempts := 0;
     ProviderClient.draws := 0;
     ProviderClient.journal := [] |}.

(** No string is read as a number. *)
Definition no_int (s : string) : result Z := Raise ValueError.

End More.
(* ================================================================== *)
(** * Part II: properties *)
(* ================================================================== *)

(** ** Python equality is reflexive *)

Section PyEq.

Lemma vsize_list_elem (v : value) (l : list value) :
  v ∈ l → (vsize v < vsize (VList l))%nat.
Proof.
  induction l as [|x l IH]; simpl; intros Hin.
  - by apply elem_of_nil in Hin.
  - apply elem_of_cons in Hin as [->|Hin]; [lia|].
    specialize (IH Hin). simpl in IH. lia.
Qed.

Lemma vsize_dict_elem (v : value) (d : gmap string value) (k : string) :
  d !! k = Some v → (vsize v < vsize (VDict d))%nat.
Proof.
  intros Hk. simpl.
  rewrite <- (insert_delete_id d k v Hk).
  rewrite map_fold_insert_L.
  - lia.
  - intros; lia.
  - apply lookup_delete_eq.
Qed.

Lemma py_eq_refl (v : value) : py_eq v v = true.
Proof.
  remember (vsize v) as n eqn:Hn.
  revert v Hn. induction n as [n IH] using lt_wf_ind. intros v ->.
  destruct v as [| b | z | s | l | d]; simpl;
    try (apply bool_decide_eq_true; reflexivity); [reflexivity| |].
  - assert (Hl : ∀ x, x ∈ l → py_eq x x = true).
    { intros x Hx. eapply IH; [|reflexivity]. by apply vsize_list_elem. }
    clear IH. induction l as [|x l IHl]; [reflexivity|].
    rewrite Hl by constructor. simpl. apply IHl.
    intros y Hy. apply Hl. by constructor.
  - apply bool_decide_eq_true. apply map_eq. intros k.
    rewrite lookup_merge, lookup_empty.
    destruct (d !! k) as [x|] eqn:Hk; simpl; [|reflexivity].
    erewrite IH; [reflexivity| |reflexivity].
    by eapply vsize_dict_elem.
Qed.

End PyEq.

(** ** The file backend on a usable path *)

Section JSONFacts.
Import JSONOfflineStorage.
Variable env : imports.

Lemma wrapper_except_decode {A} (d : A) :
  wrapper_except env d JSONDecodeError = Ok d.
Proof. reflexivity. Qed.

Lemma json_load_dump (l : list value) : json_load (json_dump l) = Ok (VList l).
Proof.
  unfold json_load, json_dump.
  assert (Hm : mapM (λ c, match json_loads c with
                          | Ok v => Some v
                          | Raise _ => None
                          end) (json_dumps <$> l) = Some l).
  { induction l as [|x l IH]; [reflexivity|].
    cbn. rewrite IH. reflexivity. }
  by rewrite Hm.
Qed.

Lemma held_written (s : state) (l : list value) : held (written s l) = l.
Proof.
  unfold held, written; simpl. destruct l as [|x l]; [reflexivity|].
  by rewrite json_load_dump.
Qed.

Lemma usable_written (s : state) (l : list value) : usable (written s l).
Proof. unfold usable, written; simpl. by destruct l. Qed.

Lemma load_fails_written (s : state) (l : list value) :
  load_fails (written s l) = false.
Proof.
  unfold load_fails, written; simpl. destruct l as [|x l]; [reflexivity|].
  by rewrite json_load_dump.
Qed.

(** On a usable path [_load_entire_list] returns, and the list it
    returns holds [held s]. *)
Lemma load_entire_list_usable (s : state) :
  usable s →
  _load_entire_list env s
  = (Ok (if load_fails s then Shared else Fresh (held s)), s).
Proof.
  unfold usable, _load_entire_list, handle_exceptions, load_fails, held.
  destruct s as [[| |t] d]; simpl; intros Hu; [reflexivity|done|].
  destruct (json_load t) as [[]|e] eqn:Ht; try reflexivity.
  assert (e = JSONDecodeError) as ->; [|reflexivity].
  destruct t as [cells|[v|raw]]; simpl in Ht.
  - destruct (mapM _ cells); congruence.
  - congruence.
  - congruence.
Qed.

Lemma deref_loaded (s : state) :
  deref (if load_fails s then Shared else Fresh (held s)) s = held s.
Proof.
  unfold load_fails, held, deref.
  destruct (path s) as [| |t]; try reflexivity.
  destruct (json_load t) as [[]|]; reflexivity.
Qed.

Lemma load_messages_held (s : state) (limit : Z) :
  usable s →
  load_messages env limit s
  = (Ok (if limit <=? 0 then held s
         else take (Z.to_nat limit) (held s)), s).
Proof.
  intros Hu. unfold load_messages, handle_exceptions, mbind, M_bind.
  rewrite load_entire_list_usable by done. simpl.
  rewrite deref_loaded. by destruct (limit <=? 0).
Qed.

(** Replacing the loaded list by [l] and saving it. *)
Lemma assign_save (s : state) (l : list value) :
  usable s →
  (current ← assign (if load_fails s then Shared else Fresh (held s)) l;
   _save_entire_list env current) s
  = (Ok (), written s l).
Proof.
  unfold usable, written, mbind, M_bind, _save_entire_list,
    handle_exceptions, assign.
  destruct s as [p d]; simpl; intros Hu.
  destruct (load_fails {| path := p; load_default := d |}); simpl;
    destruct l as [|x l], p as [| |t]; simpl; done.
Qed.

Lemma add_messages_written (s : state) (messages : list value) :
  usable s → messages ≠ [] →
  add_messages env messages s = (Ok (), written s (held s ++ messages)).
Proof.
  intros Hu Hne. unfold add_messages.
  destruct messages as [|m ms]; [done|].
  unfold handle_exceptions.
  change (current ← _load_entire_list env; s0 ← get;
          current0 ← assign current (deref current s0 ++ m :: ms);
          _save_entire_list env current0)
    with (mbind (M := M state)
            (λ current, s0 ← get;
               current0 ← assign current (deref current s0 ++ m :: ms);
               _save_entire_list env current0) (_load_entire_list env)).
  unfold mbind at 1, M_bind at 1.
  rewrite load_entire_list_usable by done.
  unfold mbind at 1, M_bind at 1, get.
  rewrite deref_loaded, assign_save by done. reflexivity.
Qed.

Lemma remove_messages_written (s : state) (messages l : list value) (n : nat) :
  usable s → messages ≠ [] →
  remove_each messages (held s) 0 = Ok (l, n) →
  remove_messages env messages s = (Ok n, written s l).
Proof.
  intros Hu Hne Hrm. unfold remove_messages.
  destruct messages as [|m ms]; [done|].
  unfold handle_exceptions.
  unfold mbind at 1, M_bind at 1.
  rewrite load_entire_list_usable by done.
  unfold mbind at 1, M_bind at 1, get.
  rewrite deref_loaded, Hrm.
  pose proof (assign_save s l Hu) as Hs.
  unfold mbind, M_bind in Hs |- *.
  destruct (assign _ l s) as [[r|e] s1]; [|done].
  rewrite Hs. reflexivity.
Qed.

End JSONFacts.

(** ** The removal loop of the file backend *)

Section RemoveEach.
Import JSONOfflineStorage.

Lemma list_remove_in (x : value) (l : list value) :
  py_in x l = true →
  ∃ l', list_remove x l = Ok l' ∧ length l = S (length l').
Proof.
  unfold py_in. induction l as [|e l IH]; simpl; [done|].
  destruct (py_eq e x) eqn:He; simpl.
  - eauto.
  - intros Hin. destruct (IH Hin) as (l' & -> & Hlen).
    eexists; split; [reflexivity|]. simpl. by rewrite Hlen.
Qed.

(** The loop never raises, and counts what it takes out. *)
Lemma remove_each_total (messages current : list value) (c : nat) :
  ∃ l n, remove_each messages current c = Ok (l, n)
         ∧ (length l + n = length current + c)%nat ∧ (c ≤ n)%nat.
Proof.
  revert current c. induction messages as [|msg rest IH]; intros current c.
  - exists current, c. simpl. repeat split; lia.
  - simpl. destruct (py_in msg current) eqn:Hin.
    + destruct (list_remove_in _ _ Hin) as (l' & -> & Hlen).
      destruct (IH l' (S c)) as (l & n & -> & Hl & Hc).
      exists l, n. repeat split; lia.
    + apply IH.
Qed.

(** Taking out the first [k] records of a list, in their order, leaves
    the rest of the list. *)
Lemma remove_each_prefix (k : nat) (l : list value) (c : nat) :
  remove_each (take k l) l c = Ok (drop k l, (c + min k (length l))%nat).
Proof.
  revert l c. induction k as [|k IH]; intros l c.
  - simpl. rewrite drop_0. f_equal. f_equal. lia.
  - destruct l as [|x l]; simpl.
    { f_equal. f_equal. lia. }
    unfold py_in. simpl. rewrite py_eq_refl. simpl.
    rewrite IH. f_equal. f_equal. lia.
Qed.

(** Messages that the list does not hold are passed over. *)
Lemma remove_each_absent (messages current : list value) (c : nat) :
  Forall (λ msg, py_in msg current = false) messages →
  remove_each messages current c = Ok (current, c).
Proof.
  induction 1 as [|msg rest Hmsg _ IH]; simpl; [reflexivity|].
  by rewrite Hmsg.
Qed.

End RemoveEach.

(** ** The SQL backend on a database that has its table *)

Section SQLiteFacts.
Import SQLiteOfflineStorage.
Variable env : imports.

Lemma load_messages_rows (t : table) (limit : Z) :
  load_messages env limit (DbFile (Some t))
  = (Ok (parse_rows (if 0 <? limit then take (Z.to_nat limit) (rows t)
                     else rows t)),
     DbFile (Some t)).
Proof. reflexivity. Qed.

Lemma parse_rows_app (l1 l2 : list (Z * cell)) :
  parse_rows (l1 ++ l2) = parse_rows l1 ++ parse_rows l2.
Proof.
  induction l1 as [|r l1 IH]; simpl; [reflexivity|].
  destruct (parse_row r); simpl; by rewrite IH.
Qed.

(** Decoding the first [n] rows gives a prefix of decoding them all. *)
Lemma parse_rows_take (n : nat) (l : list (Z * cell)) :
  parse_rows (take n l)
  = take (length (parse_rows (take n l))) (parse_rows l).
Proof.
  rewrite <- (take_drop n l) at 3.
  rewrite parse_rows_app, take_app_length. reflexivity.
Qed.

(** A decoded row is a dictionary that carries the rowid. *)
Lemma parse_row_ok (r : Z * cell) (v : value) :
  parse_row r = Ok v →
  ∃ d, r.2 = Enc (VDict d) ∧ v = VDict (<["_db_id" := VInt r.1]> d).
Proof.
  unfold parse_row. destruct r as [i [[]|]]; simpl; try done.
  intros [= <-]. eauto.
Qed.

Lemma parse_row_db_id (r : Z * cell) (v : value) :
  parse_row r = Ok v → dict_get v "_db_id" = Ok (Some (VInt r.1)).
Proof.
  intros (d & _ & ->)%parse_row_ok. simpl. by rewrite lookup_insert_eq.
Qed.

Lemma filter_notin_nil (l : list (Z * cell)) :
  filter (λ r, r.1 ∉ ([] : list Z)) l = l.
Proof.
  induction l as [|r l IH]; [reflexivity|].
  rewrite filter_cons_True by apply not_elem_of_nil. by rewrite IH.
Qed.

Lemma filter_notin_cons (i : Z) (ids : list Z) (l : list (Z * cell)) :
  i ∉ l.*1 →
  filter (λ r, r.1 ∉ i :: ids) l = filter (λ r, r.1 ∉ ids) l.
Proof.
  induction l as [|r l IH]; [reflexivity|].
  rewrite fmap_cons, not_elem_of_cons. intros [Hne Hl].
  rewrite !filter_cons, IH by done.
  destruct (decide (r.1 ∉ i :: ids)) as [Hy|Hn], (decide (r.1 ∉ ids)) as [Hy'|Hn'];
    try reflexivity.
  - exfalso. apply Hy. apply elem_of_cons. right.
    by apply dec_stable.
  - exfalso. apply Hn. rewrite not_elem_of_cons. split; [congruence|done].
Qed.

(** Removing the first [k] records that a drain yields: the rowids
    collected from them are those of the rows they came from, and the
    rows that stay are all the others. *)
Lemma remove_prefix_rows (l : list (Z * cell)) (k : nat) (acc : list Z) :
  NoDup l.*1 →
  ∃ ids, collect_row_ids (take k (parse_rows l)) acc = Ok (acc ++ ids)
       ∧ (∀ i, i ∈ ids → i ∈ l.*1)
       ∧ parse_rows (filter (λ r, r.1 ∉ ids) l) = drop k (parse_rows l)
       ∧ (length (filter (λ r, r.1 ∉ ids) l)
          + min k (length (parse_rows l)) = length l)%nat.
Proof.
  revert k acc. induction l as [|r l IH]; intros k acc Hnd.
  - exists []. simpl. rewrite take_nil, drop_nil, app_nil_r.
    repeat split; [|lia]. intros i Hi. by apply elem_of_nil in Hi.
  - rewrite fmap_cons in Hnd. apply NoDup_cons in Hnd as [Hr Hnd].
    destruct k as [|k].
    { exists []. rewrite app_nil_r, filter_notin_nil, drop_0. simpl.
      repeat split; [|lia]. intros i Hi. by apply elem_of_nil in Hi. }
    cbn [parse_rows]. destruct (parse_row r) as [v|e] eqn:Hv.
    + destruct (IH k (acc ++ [r.1]) Hnd) as (ids & Hc & Hsub & Hp & Hlen).
      exists (r.1 :: ids). cbn [take collect_row_ids drop].
      rewrite (parse_row_db_id _ _ Hv), Hc, <- app_assoc. simpl.
      split; [reflexivity|]. split.
      { intros i [->|Hi]%elem_of_cons; [left|right; auto]. }
      rewrite filter_cons_False by (intros Hn; apply Hn; left).
      rewrite filter_notin_cons by done. split; [done|].
      cbn [length]. lia.
    + destruct (IH (S k) acc Hnd) as (ids & Hc & Hsub & Hp & Hlen).
      exists ids. split; [done|]. split.
      { intros i Hi. right. auto. }
      rewrite filter_cons_True by (intros Hi; apply Hr, Hsub, Hi).
      cbn [parse_rows]. rewrite Hv. split; [done|].
      cbn [length]. lia.
Qed.

Lemma sorted_NoDup (ids : list Z) : StronglySorted Z.lt ids → NoDup ids.
Proof.
  induction 1 as [|i ids _ IH Hall]; constructor; [|done].
  intros Hin. rewrite Forall_forall in Hall. specialize (Hall _ Hin). lia.
Qed.

Lemma sorted_filter (P : Z * cell → Prop) `{∀ r, Decision (P r)}
    (l : list (Z * cell)) :
  StronglySorted Z.lt l.*1 → StronglySorted Z.lt (filter P l).*1.
Proof.
  induction l as [|r l IH]; [done|].
  rewrite fmap_cons. intros [Hs Hall]%StronglySorted_inv.
  rewrite filter_cons. destruct (decide (P r)); [|auto].
  rewrite fmap_cons. constructor; [auto|].
  rewrite Forall_forall in Hall |- *. intros i Hi. apply Hall.
  apply list_elem_of_fmap in Hi as (x & -> & Hx).
  apply list_elem_of_fmap. exists x. split; [done|].
  by apply list_elem_of_filter in Hx as [_ ?].
Qed.

Lemma wf_table_filter (P : Z * cell → Prop) `{∀ r, Decision (P r)} (t : table) :
  wf_table t → wf_table {| rows := filter P (rows t); seq := seq t |}.
Proof.
  intros [Hs Hb]. split; simpl; [by apply sorted_filter|].
  rewrite Forall_forall in Hb |- *. intros i Hi. apply Hb.
  apply list_elem_of_fmap in Hi as (x & -> & Hx).
  apply list_elem_of_fmap. exists x. split; [done|].
  by apply list_elem_of_filter in Hx as [_ ?].
Qed.

(** [remove_messages] once the rowids have been collected. *)
Lemma remove_messages_rows (t : table) (messages : list value) (ids : list Z) :
  collect_row_ids messages [] = Ok ids →
  let kept := filter (λ r, r.1 ∉ ids) (rows t) in
  remove_messages env messages (DbFile (Some t))
  = (Ok (length (rows t) - length kept)%nat,
     DbFile (Some {| rows := kept; seq := seq t |})).
Proof.
  intros Hc kept. subst kept. unfold remove_messages, handle_exceptions.
  destruct messages as [|m ms].
  { simpl in Hc. injection Hc as <-. rewrite filter_notin_nil.
    destruct t; simpl. f_equal. f_equal. lia. }
  rewrite Hc. destruct ids as [|i ids]; [|reflexivity].
  rewrite filter_notin_nil. destruct t; simpl. f_equal. f_equal. lia.
Qed.

End SQLiteFacts.

(** ** Both backends, as the buffer service sees them *)

Section StorageFacts.
Import OfflineStorageService.
Variable env : imports.

(** A drain of at most ten records returns a prefix of the full drain
    and changes nothing. *)
Lemma load_batch (b : storage) :
  usable b →
  ∃ m, load_messages env 10 b = (Ok (take m (drained b)), b)
       ∧ (m ≤ length (drained b))%nat.
Proof.
  destruct b as [s|d]; intros Hu.
  - exists (min 10 (length (JSONOfflineStorage.held s))).
    unfold load_messages, dispatch, drained.
    rewrite (load_messages_held env s 10) by done. split; [|lia].
    rewrite <- take_take, (take_ge _ (length _)) by lia. reflexivity.
  - destruct d as [|[t|]]; try done. simpl.
    exists (length (SQLiteOfflineStorage.parse_rows (take 10 (SQLiteOfflineStorage.rows t)))).
    unfold SQLiteOfflineStorage.drained. simpl.
    rewrite <- parse_rows_take. split; [reflexivity|].
    rewrite parse_rows_take, length_take. lia.
Qed.

(** Acknowledging the first [k] drained records removes exactly those. *)
Lemma remove_prefix (b : storage) (k : nat) :
  usable b → (0 < k ≤ length (drained b))%nat →
  ∃ b', remove_messages env (take k (drained b)) b = (Ok k, b')
        ∧ usable b'
        ∧ drained b' = drop k (drained b)
        ∧ (stored_count b' + k = stored_count b)%nat.
Proof.
  destruct b as [s|d]; simpl; intros Hu Hk.
  - exists (JSON (JSONOfflineStorage.written s (drop k (JSONOfflineStorage.held s)))).
    simpl. rewrite held_written.
    erewrite remove_messages_written; [| done | | apply remove_each_prefix].
    + rewrite Nat.min_l by lia. split; [reflexivity|].
      split; [apply usable_written|]. split; [reflexivity|].
      rewrite length_drop. lia.
    + destruct (JSONOfflineStorage.held s); simpl in *; [lia|].
      destruct k; [lia|done].
  - destruct d as [|[t|]]; try done. simpl in *.
    unfold SQLiteOfflineStorage.drained in *. simpl in *.
    destruct Hu as [Hs Hb].
    destruct (remove_prefix_rows (SQLiteOfflineStorage.rows t) k []
                (sorted_NoDup _ Hs)) as (ids & Hc & _ & Hp & Hlen).
    rewrite (remove_messages_rows env t _ ids Hc).
    eexists. split; [|split; [|split]].
    + f_equal. f_equal. rewrite Nat.min_l in Hlen by lia. lia.
    + simpl. by apply wf_table_filter.
    + simpl. exact Hp.
    + simpl. rewrite Nat.min_l in Hlen by lia. lia.
Qed.

End StorageFacts.

(** ** The flush algorithm *)

Section Flush.
Import OfflineStorageService.
Context {E : Type} `{IIoTClient E}.
Variable env : imports.

Lemma deliver_app (l1 l2 : list value) (e : E) :
  deliver (l1 ++ l2) e
  = let (a1, e1) := deliver l1 e in
    let (a2, e2) := deliver l2 e1 in (a1 ++ a2, e2).
Proof.
  revert e. induction l1 as [|x l1 IH]; intros e; simpl.
  - by destruct (deliver l2 e).
  - destruct (send_telemetry e x) as [sent e']. rewrite IH.
    destruct (deliver l1 e') as [a1 e1].
    by destruct (deliver l2 e1).
Qed.

(** One batch: [n] records go to the endpoint in order, the first [j] of
    them are accepted; the loop goes on as long as sends succeed. *)
Lemma send_batch_spec (batch : list value) (count : nat) (e : E)
    (w : list value) :
  ∃ j n e',
    send_batch batch count (e, w) = ((count + j)%nat, (e', w ++ take n batch))
    ∧ deliver (take n batch) e
      = (replicate j true ++ replicate (n - j) false, e')
    ∧ (j ≤ n ≤ j + 1)%nat ∧ (n ≤ length batch)%nat
    ∧ (n = j → j = length batch).
Proof.
  revert count e w. induction batch as [|msg rest IH]; intros count e w.
  - exists 0%nat, 0%nat, e. simpl. rewrite app_nil_r, Nat.add_0_r.
    repeat split; lia.
  - cbn [send_batch]. unfold client_send. cbn [fst snd].
    destruct (send_telemetry e msg) as [[|] e1] eqn:Hs.
    + destruct (IH (S count) e1 (w ++ [msg])) as (j & n & e' & -> & Hd & Hj & Hn & Hall).
      exists (S j), (S n), e'. cbn [take deliver length].
      rewrite Hs, Hd, <- app_assoc. cbn [app].
      replace (S n - S j)%nat with (n - j)%nat by lia.
      repeat split; try lia. f_equal. lia.
    + exists 0%nat, 1%nat, e1. cbn [take deliver length].
      rewrite Hs, take_0, Nat.add_0_r. cbn [deliver].
      repeat split; lia.
Qed.

(** The whole loop.  With more fuel than there are records to drain it
    reaches a [break]: [n] records went to the endpoint in order, the
    first [k] were accepted and are gone from the store, and nothing else
    is. *)
Lemma flush_loop_spec (fuel : nat) (b : storage) (e : E) (w : list value) :
  usable b → (length (drained b) < fuel)%nat →
  ∃ k n b' e',
    flush_loop env fuel b (e, w)
    = Some (Ok (), (b', (e', w ++ take n (drained b))))
    ∧ deliver (take n (drained b)) e
      = (replicate k true ++ replicate (n - k) false, e')
    ∧ (k ≤ n ≤ k + 1)%nat ∧ (n ≤ length (drained b))%nat
    ∧ drained b' = drop k (drained b)
    ∧ (stored_count b' + k = stored_count b)%nat
    ∧ usable b'
    ∧ (n = k → (load_messages env 10 b').1 = Ok []).
Proof.
  revert b e w. induction fuel as [|fuel IH]; intros b e w Hu Hfuel; [lia|].
  cbn [flush_loop].
  destruct (load_batch env b Hu) as (m & Hload & Hm). rewrite Hload.
  destruct (take m (drained b)) as [|x batch] eqn:Hbatch.
  { exists 0%nat, 0%nat, b, e. rewrite take_0, drop_0, app_nil_r. simpl.
    rewrite Hload. repeat split; try done; lia. }
  rewrite <- Hbatch.
  assert (Hlen : length (take m (drained b)) = m) by (rewrite length_take; lia).
  assert (Hmpos : (0 < m)%nat).
  { destruct m; [by rewrite take_0 in Hbatch|lia]. }
  destruct (send_batch_spec (take m (drained b)) 0 e w)
    as (j & n & e1 & Hsend & Hdel & Hjn & Hn & Hall).
  rewrite Hsend, Nat.add_0_l. rewrite Hlen in Hn, Hall.
  rewrite take_take, (Nat.min_l n m) in Hdel by lia.
  rewrite !take_take, (Nat.min_l n m), (Nat.min_l j m) by lia.
  destruct (decide (j = 0)%nat) as [->|Hj0].
  - (* the first send of the batch failed: nothing is removed *)
    cbn [Nat.ltb Nat.leb]. rewrite Hbatch. cbn [length Nat.ltb Nat.leb].
    exists 0%nat, n, b, e1. rewrite drop_0.
    split_and!; try done; try lia; try (intros ->; lia).
  - assert (Hjpos : (0 <? j)%nat = true) by (apply Nat.ltb_lt; lia).
    rewrite Hjpos.
    destruct (remove_prefix env b j Hu) as (b1 & Hrm & Hu1 & Hd1 & Hc1); [lia|].
    rewrite Hrm, Hlen.
    destruct (decide (j < m)%nat) as [Hlt|Hge].
    + (* a send failed inside the batch: the flush stops *)
      assert (Hjm : (j <? m)%nat = true) by (apply Nat.ltb_lt; lia).
      rewrite Hjm. exists j, n, b1, e1.
      split_and!; try done; try lia; try (intros ->; lia).
    + (* the whole batch was sent: next batch *)
      assert (Hjm : (j <? m)%nat = false) by (apply Nat.ltb_ge; lia).
      rewrite Hjm.
      assert (j = m) as -> by lia. assert (n = m) as -> by lia.
      destruct (IH b1 e1 (w ++ take m (drained b)) Hu1)
        as (k & n' & b' & e' & Hloop & Hdel' & Hkn & Hn' & Hd' & Hc' & Hu' & Hend).
      { rewrite Hd1, length_drop. lia. }
      rewrite Hd1 in Hloop, Hdel', Hn', Hd'. rewrite length_drop in Hn'.
      exists (m + k)%nat, (m + n')%nat, b', e'.
      rewrite Hloop, <- app_assoc, take_take_drop.
      split; [reflexivity|]. split.
      { rewrite <- take_take_drop, deliver_app, Hdel, Hdel'.
        rewrite Nat.sub_diag. cbn [replicate]. rewrite app_nil_r.
        rewrite replicate_add, <- app_assoc.
        replace (m + n' - (m + k))%nat with (n' - k)%nat by lia.
        reflexivity. }
      rewrite Hd', drop_drop.
      split_and!; try done; try lia. intros Heq. apply Hend. lia.
Qed.

End Flush.

(** ** Flush: stop on the first failure, acknowledge the sent prefix *)

Section FlushData.
Import OfflineStorageService.
Context {E : Type} `{IIoTClient E}.
Variable env : imports.

(** [flush_data] on a service whose storage is usable and whose client is
    connected: the loop result, carried through the decorator. *)
Lemma flush_data_spec (fuel : nat) (b : storage) (e : E) (w : list value) :
  usable b → is_connected e = true → (length (drained b) < fuel)%nat →
  ∃ k n b' e',
    flush_data env fuel {| _storage := Some b; _client := Some e; wire := w |}
    = Some (Ok (), {| _storage := Some b'; _client := Some e';
                      wire := w ++ take n (drained b) |})
    ∧ deliver (take n (drained b)) e
      = (replicate k true ++ replicate (n - k) false, e')
    ∧ (k ≤ n ≤ k + 1)%nat ∧ (n ≤ length (drained b))%nat
    ∧ drained b' = drop k (drained b)
    ∧ (stored_count b' + k = stored_count b)%nat
    ∧ usable b'
    ∧ (n = k → (load_messages env 10 b').1 = Ok []).
Proof.
  intros Hu Hc Hfuel.
  destruct (flush_loop_spec env fuel b e w Hu Hfuel)
    as (k & n & b' & e' & Hloop & Hrest).
  exists k, n, b', e'. split; [|exact Hrest].
  unfold flush_data. cbn [_storage _client wire]. by rewrite Hc, Hloop.
Qed.

(** C1.  Flush batch semantics.  For every usable backend state [b] and
    every endpoint [e] (whatever its sends answer), a flush hands the
    drained records to the endpoint strictly in drain order: the records
    sent are the first [n] of the drain, the first [k] sends succeed, and
    either [n = k] (no send failed; the next batch is empty) or
    [n = k + 1] and that last send failed, after which nothing more is
    sent.  Exactly the [k] records that were sent successfully leave the
    store: the drain of the store afterwards is the old drain without
    its first [k] records, and the number of stored records has gone down
    by [k] (by nothing when the first send failed). *)
Theorem flush_batch_semantics (fuel : nat) (b : storage) (e : E)
    (w : list value) :
  usable b → is_connected e = true → (length (drained b) < fuel)%nat →
  ∃ k n b' e',
    flush_data env fuel {| _storage := Some b; _client := Some e; wire := w |}
    = Some (Ok (), {| _storage := Some b'; _client := Some e';
                      wire := w ++ take n (drained b) |})
    ∧ deliver (take n (drained b)) e
      = (replicate k true ++ replicate (n - k) false, e')
    ∧ (k ≤ n ≤ k + 1)%nat ∧ (n ≤ length (drained b))%nat
    ∧ drained b' = drop k (drained b)
    ∧ (stored_count b' + k = stored_count b)%nat
    ∧ usable b'
    ∧ (n = k → (load_messages env 10 b').1 = Ok []).
Proof. exact (flush_data_spec fuel b e w). Qed.

End FlushData.

Section FlushExamples.
Import OfflineStorageService Samples.

Lemma flush_batch_semantics_witness :
  usable (JSON (json_holding [m1; m2; m3]))
  ∧ is_connected {| up := true; script := [true; false] |} = true
  ∧ (length (drained (JSON (json_holding [m1; m2; m3]))) < 4)%nat
  ∧ ∃ k n b' e',
      flush_data all_installed 4
        {| _storage := Some (JSON (json_holding [m1; m2; m3]));
           _client := Some {| up := true; script := [true; false] |};
           wire := [] |}
      = Some (Ok (), {| _storage := Some b'; _client := Some e';
                        wire := [] ++ take n (drained (JSON (json_holding [m1; m2; m3]))) |})
      ∧ deliver (take n (drained (JSON (json_holding [m1; m2; m3]))))
          {| up := true; script := [true; false] |}
        = (replicate k true ++ replicate (n - k) false, e')
      ∧ (k ≤ n ≤ k + 1)%nat
      ∧ (n ≤ length (drained (JSON (json_holding [m1; m2; m3]))))%nat
      ∧ drained b' = drop k (drained (JSON (json_holding [m1; m2; m3])))
      ∧ (stored_count b' + k
         = stored_count (JSON (json_holding [m1; m2; m3])))%nat
      ∧ usable b'
      ∧ (n = k → (load_messages all_installed 10 b').1 = Ok []).
Proof.
  assert (Hu : usable (JSON (json_holding [m1; m2; m3]))) by (intros Hd; discriminate Hd).
  assert (Hc : is_connected {| up := true; script := [true; false] |} = true)
    by reflexivity.
  assert (Hf : (length (drained (JSON (json_holding [m1; m2; m3]))) < 4)%nat)
    by (vm_compute; lia).
  split; [exact Hu|]. split; [exact Hc|]. split; [exact Hf|].
  exact (flush_batch_semantics all_installed 4 _ _ [] Hu Hc Hf).
Defined.

(** The instance of the specification: the store holds [m1, m2, m3], the
    endpoint accepts [m1] and refuses [m2].  Afterwards the store holds
    [m2, m3] and the endpoint was called twice, with [m1] and with [m2]. *)
Example flush_m1_m2_m3_json :
  flush_data all_installed 4
    (connected_service (JSON (json_holding [m1; m2; m3])) [true; false])
  = Some (Ok (), {| _storage := Some (JSON (json_holding [m2; m3]));
                    _client := Some {| up := true; script := [] |};
                    wire := [m1; m2] |}).
Proof. vm_compute. reflexivity. Qed.

(** The same on the SQL backend; the records on the wire carry their
    rowid. *)
Example flush_m1_m2_m3_sqlite :
  flush_data all_installed 4
    (connected_service (SQLite (sqlite_holding [Enc m1; Enc m2; Enc m3]))
       [true; false])
  = Some (Ok (),
          {| _storage := Some (SQLite (SQLiteOfflineStorage.DbFile (Some
               {| SQLiteOfflineStorage.rows := [(2, Enc m2); (3, Enc m3)];
                  SQLiteOfflineStorage.seq := 3 |})));
             _client := Some {| up := true; script := [] |};
             wire := [SQLiteOfflineStorage.with_db_id 1 m1; SQLiteOfflineStorage.with_db_id 2 m2] |}).
Proof. vm_compute. reflexivity. Qed.

End FlushExamples.

(** ** What a flush from the SQL backend puts on the wire *)

Section FlushSQLite.
Import SQLiteOfflineStorage OfflineStorageService.
Context {E : Type} `{IIoTClient E}.
Variable env : imports.

Lemma parse_rows_elem (l : list (Z * cell)) (v : value) :
  v ∈ parse_rows l → ∃ r, r ∈ l ∧ parse_row r = Ok v.
Proof.
  induction l as [|r l IH]; simpl; [by intros ?%elem_of_nil|].
  destruct (parse_row r) as [v'|e] eqn:Hr.
  - intros [->|Hin]%elem_of_cons.
    + exists r. split; [left|done].
    + destruct (IH Hin) as (r' & ? & ?). exists r'. split; [by right|done].
  - intros Hin. destruct (IH Hin) as (r' & ? & ?).
    exists r'. split; [by right|done].
Qed.

(** C2, as amended.  For the SQL backend, every message passed to the
    endpoint's send during a flush is the dictionary stored in some row of
    the table to which the field ["_db_id"], holding the id of that row,
    has been added: the identifier travels with the message. *)
Theorem sqlite_flush_sends_db_id (fuel : nat) (d : disk) (e : E)
    (w : list value) :
  SQLiteOfflineStorage.usable d → is_connected e = true →
  (length (drained (SQLite d)) < fuel)%nat →
  ∃ w' sent,
    flush_data env fuel
      {| _storage := Some (SQLite d); _client := Some e; wire := w |}
    = Some (Ok (), w')
    ∧ wire w' = w ++ sent
    ∧ Forall (λ msg, ∃ row_id payload,
                (row_id, Enc (VDict payload)) ∈ rows_of d
                ∧ msg = VDict (<["_db_id" := VInt row_id]> payload)
                ∧ dict_get msg "_db_id" = Ok (Some (VInt row_id))) sent.
Proof.
  intros Hu Hc Hfuel.
  destruct (flush_data_spec env fuel (SQLite d) e w Hu Hc Hfuel)
    as (k & n & b' & e' & Hflush & _).
  eexists _, (take n (drained (SQLite d))).
  split; [exact Hflush|]. split; [reflexivity|].
  apply Forall_forall. intros msg Hin.
  apply elem_of_take in Hin as (i & Hin%list_elem_of_lookup_2 & _).
  apply parse_rows_elem in Hin as ([row_id c] & Hr & Hp).
  pose proof (parse_row_db_id _ _ Hp) as Hid.
  apply parse_row_ok in Hp as (payload & Hc2 & ->). simpl in Hc2. subst c.
  exists row_id, payload. by repeat split.
Qed.

End FlushSQLite.

Section FlushSQLiteExamples.
Import SQLiteOfflineStorage OfflineStorageService Samples.

Lemma sqlite_flush_sends_db_id_witness :
  SQLiteOfflineStorage.usable (sqlite_holding [Enc m1])
  ∧ is_connected {| up := true; script := [true] |} = true
  ∧ (length (drained (SQLite (sqlite_holding [Enc m1]))) < 2)%nat
  ∧ ∃ w' sent,
      flush_data all_installed 2
        {| _storage := Some (SQLite (sqlite_holding [Enc m1]));
           _client := Some {| up := true; script := [true] |};
           wire := [] |}
      = Some (Ok (), w')
      ∧ wire w' = [] ++ sent
      ∧ Forall (λ msg, ∃ row_id payload,
                  (row_id, Enc (VDict payload)) ∈ rows_of (sqlite_holding [Enc m1])
                  ∧ msg = VDict (<["_db_id" := VInt row_id]> payload)
                  ∧ dict_get msg "_db_id" = Ok (Some (VInt row_id))) sent.
Proof.
  assert (Hu : SQLiteOfflineStorage.usable (sqlite_holding [Enc m1])).
  { split; simpl; [repeat constructor|].
    apply Forall_cons. split; [lia|constructor]. }
  assert (Hc : is_connected {| up := true; script := [true] |} = true)
    by reflexivity.
  assert (Hf : (length (drained (SQLite (sqlite_holding [Enc m1]))) < 2)%nat)
    by (vm_compute; lia).
  split; [exact Hu|]. split; [exact Hc|]. split; [exact Hf|].
  exact (sqlite_flush_sends_db_id all_installed 2 _ _ [] Hu Hc Hf).
Defined.

(** C2 fails as stated.  [m1] is enqueued in an empty table and flushed to
    an endpoint that accepts it: the one message handed to the endpoint is
    not [m1], it is [m1] with the field ["_db_id"] set to 1. *)
Lemma sqlite_flush_exposes_db_id :
  ∃ db w' sent,
    SQLiteOfflineStorage.add_messages all_installed [m1]
      (DbFile (Some empty_table)) = (Ok (), db)
    ∧ flush_data all_installed 2
        {| _storage := Some (SQLite db);
           _client := Some {| up := true; script := [true] |};
           wire := [] |}
      = Some (Ok (), w')
    ∧ wire w' = [sent]
    ∧ dict_get sent "_db_id" = Ok (Some (VInt 1))
    ∧ dict_get m1 "_db_id" = Ok None
    ∧ sent ≠ m1.
Proof.
  eexists _, _, (SQLiteOfflineStorage.with_db_id 1 m1).
  split; [reflexivity|]. split; [vm_compute; reflexivity|].
  split; [reflexivity|]. split; [reflexivity|]. split; [reflexivity|].
  intros Heq. apply (f_equal (λ v, dict_get v "_db_id")) in Heq.
  vm_compute in Heq. discriminate Heq.
Qed.

End FlushSQLiteExamples.

(** ** The file backend is a FIFO *)

Section JSONFifo.
Import JSONOfflineStorage.
Variable env : imports.

(** Enqueueing one message at a time on a usable path appends them, in
    that order, to what the backend holds. *)
Lemma add_each_held (ms : list value) (s : state) :
  usable s →
  ∃ s', add_each env ms s = (Ok (), s')
        ∧ held s' = held s ++ ms ∧ usable s'.
Proof.
  revert s. induction ms as [|m ms IH]; intros s Hu.
  - exists s. by rewrite app_nil_r.
  - cbn [add_each]. unfold mbind, M_bind.
    rewrite add_messages_written by done.
    destruct (IH (written s (held s ++ [m])) (usable_written _ _))
      as (s' & Hs' & Hheld & Hu').
    exists s'. rewrite held_written, <- app_assoc in Hheld. by rewrite Hs'.
Qed.

(** C3.  FIFO drain contract of the file backend.  On a path where no file
    exists, after [add_messages([m1])], ..., [add_messages([mn])] and no
    removal, [load_messages(0)] returns exactly [[m1, ..., mn]] in that
    order; for every [limit > 0], [load_messages(limit)] returns the first
    [min(limit, n)] of them; and neither call changes the state of the
    backend. *)
Theorem json_fifo_drain (shared ms : list value) (limit : Z) :
  0 < limit →
  ∃ s, add_each env ms {| path := Missing; load_default := shared |} = (Ok (), s)
       ∧ load_messages env 0 s = (Ok ms, s)
       ∧ load_messages env limit s = (Ok (take (Z.to_nat limit) ms), s)
       ∧ length (take (Z.to_nat limit) ms)
         = min (Z.to_nat limit) (length ms).
Proof.
  intros Hlimit.
  destruct (add_each_held ms {| path := Missing; load_default := shared |})
    as (s & Hs & Hheld & Hu); [done|].
  change (held {| path := Missing; load_default := shared |}) with (@nil value)
    in Hheld. rewrite app_nil_l in Hheld.
  exists s. split; [exact Hs|].
  rewrite !load_messages_held by done. rewrite Hheld.
  replace (limit <=? 0) with false by (symmetry; apply Z.leb_gt; lia).
  split; [reflexivity|]. split; [reflexivity|]. apply length_take.
Qed.

End JSONFifo.

Section JSONFifoExamples.
Import JSONOfflineStorage Samples.

Lemma json_fifo_drain_witness :
  0 < 2
  ∧ ∃ s, add_each all_installed [m1; m2; m3]
           {| path := Missing; load_default := [] |} = (Ok (), s)
         ∧ load_messages all_installed 0 s = (Ok [m1; m2; m3], s)
         ∧ load_messages all_installed 2 s
           = (Ok (take (Z.to_nat 2) [m1; m2; m3]), s)
         ∧ length (take (Z.to_nat 2) [m1; m2; m3])
           = min (Z.to_nat 2) (length [m1; m2; m3]).
Proof.
  split; [lia|].
  apply (json_fifo_drain all_installed [] [m1; m2; m3] 2). lia.
Defined.

(** The backend keeps records in the order of their arrival also when it
    already holds some. *)
Example json_fifo_after_restart :
  (add_each all_installed [m2; m3] (json_holding [m1])).2
  = json_holding [m1; m2; m3].
Proof. vm_compute. reflexivity. Qed.

End JSONFifoExamples.

(** ** Reconnect: bounded retries with exponential backoff and jitter *)

Section Reconnect.
Import ProviderClient.
Variable env : imports.










End Reconnect.

Section ReconnectClaim.
Import ProviderClient.
Variable env : imports.




End ReconnectClaim.

Section ReconnectExamples.
Import ProviderClient Samples.



(** With the network back for the third attempt, [reconnect(3)] returns
    success right after it. *)
Example reconnect_third_attempt :
  ∃ c', reconnect all_installed 3 recovering_client = (Ok true, c')
        ∧ journal c'
          = [Attempt false; Sleep (slept 1 (1 # 2));
             Attempt false; Sleep (slept 2 (1 # 2));
             Attempt true].
Proof.
  exists (reconnect all_installed 3 recovering_client).2.
  split; vm_compute; reflexivity.
Qed.

End ReconnectExamples.

(** ** Enqueueing *)

Section SQLiteInsert.
Import SQLiteOfflineStorage.
Variable env : imports.

Lemma insert_each_inserted (messages : list value) (t : table) :
  insert_each messages (DbFile (Some t))
  = (Ok (), DbFile (Some (inserted t messages))).
Proof.
  revert t. induction messages as [|msg rest IH]; intros t.
  - unfold inserted. simpl. rewrite app_nil_r, Z.add_0_r. by destruct t.
  - cbn [insert_each]. unfold mbind, M_bind, try_except, insert.
    rewrite IH. unfold inserted. cbn [rows seq fresh_rows length].
    rewrite <- app_assoc. do 4 f_equal. lia.
Qed.

Lemma add_messages_inserted (messages : list value) (t : table) :
  add_messages env messages (DbFile (Some t))
  = (Ok (), DbFile (Some (inserted t messages))).
Proof.
  unfold add_messages, handle_exceptions. destruct messages as [|m ms].
  - unfold inserted. simpl. rewrite app_nil_r, Z.add_0_r. by destruct t.
  - unfold mbind, M_bind, connect. by rewrite insert_each_inserted.
Qed.

Lemma fresh_rows_ids (seq : Z) (messages : list value) :
  Forall (λ i, seq < i ≤ seq + Z.of_nat (length messages))
    (fresh_rows seq messages).*1
  ∧ StronglySorted Z.lt (fresh_rows seq messages).*1.
Proof.
  revert seq. induction messages as [|m ms IH]; intros seq.
  - split; constructor.
  - destruct (IH (seq + 1)) as [Hb Hs]. cbn [fresh_rows fmap list_fmap length fst].
    split.
    + constructor; [lia|].
      eapply Forall_impl; [exact Hb|]. intros i ?. simpl in *. lia.
    + constructor; [exact Hs|].
      eapply Forall_impl; [exact Hb|]. intros i ?. simpl in *. lia.
Qed.

Lemma wf_table_inserted (t : table) (messages : list value) :
  wf_table t → wf_table (inserted t messages).
Proof.
  intros [Hs Hb]. destruct (fresh_rows_ids (seq t) messages) as [Hfb Hfs].
  unfold wf_table, inserted. cbn [rows seq]. rewrite fmap_app. split.
  - apply StronglySorted_app. split; [|done].
    intros i j Hi Hj. rewrite Forall_forall in Hb, Hfb.
    specialize (Hb _ Hi). specialize (Hfb _ Hj). lia.
  - apply Forall_app. split.
    + eapply Forall_impl; [exact Hb|]. intros i ?. simpl in *. lia.
    + eapply Forall_impl; [exact Hfb|]. intros i ?. simpl in *. lia.
Qed.

End SQLiteInsert.

Section Enqueue.
Import OfflineStorageService.
Variable env : imports.

(** Enqueueing one message in a usable store appends it to the messages
    the store holds. *)
Lemma add_one (b : storage) (data : value) :
  usable b →
  ∃ b', add_messages env [data] b = (Ok (), b')
        ∧ payloads b' = payloads b ++ [data]
        ∧ usable b'.
Proof.
  destruct b as [s|d]; intros Hu.
  - exists (JSON (JSONOfflineStorage.written s (JSONOfflineStorage.held s ++ [data]))).
    unfold add_messages, dispatch.
    rewrite add_messages_written by done.
    split; [reflexivity|]. split; [apply held_written|apply usable_written].
  - destruct d as [|[t|]]; try done.
    exists (SQLite (SQLiteOfflineStorage.DbFile (Some (SQLiteOfflineStorage.inserted t [data])))).
    unfold add_messages, dispatch. rewrite add_messages_inserted.
    split; [reflexivity|]. split; [|by apply wf_table_inserted].
    unfold payloads. cbn. by rewrite omap_app.
Qed.

End Enqueue.

(** ** The manager's [send_telemetry] *)

Section SendTelemetry.
Import OfflineStorageService.
Context {E : Type} `{IIoTClient E}.
Variable env : imports.

(** C5.  For every message, every endpoint state and every usable
    configured backend: when the endpoint is not connected,
    [send_telemetry] does not call the endpoint's send (the wire and the
    endpoint are as before), appends the message to what the backend holds
    and returns [False]; when the endpoint is connected and its send
    fails, [send_telemetry] likewise appends the message to the backend
    and returns [False].  In both cases the call returns: nothing is
    raised. *)
Theorem send_telemetry_buffers (data : value) (b : storage) (e : E)
    (w : list value) :
  usable b →
  ∃ b', payloads b' = payloads b ++ [data]
        ∧ usable b'
        ∧ (is_connected e = false →
           IoTManager.send_telemetry env data
             {| _storage := Some b; _client := Some e; wire := w |}
           = (Ok false, {| _storage := Some b'; _client := Some e; wire := w |}))
        ∧ (∀ e', is_connected e = true → send_telemetry e data = (false, e') →
           IoTManager.send_telemetry env data
             {| _storage := Some b; _client := Some e; wire := w |}
           = (Ok false, {| _storage := Some b'; _client := Some e';
                           wire := w ++ [data] |})).
Proof.
  intros Hu. destruct (add_one env b data Hu) as (b' & Hadd & Hp & Hu').
  exists b'. split; [exact Hp|]. split; [exact Hu'|]. split.
  - intros Hc. unfold IoTManager.send_telemetry. cbn [_client].
    rewrite Hc. cbn [negb]. unfold mbind, M_bind, add_message, handle_exceptions.
    cbn [_storage _client wire]. by rewrite Hadd.
  - intros e' Hc Hsend. unfold IoTManager.send_telemetry. cbn [_client].
    rewrite Hc. cbn [negb]. unfold client_send. cbn [fst snd wire].
    rewrite Hsend. cbn [negb].
    unfold mbind, M_bind, add_message, handle_exceptions.
    cbn [_storage _client wire]. by rewrite Hadd.
Qed.

End SendTelemetry.

Section SendTelemetryExamples.
Import OfflineStorageService Samples.

Lemma send_telemetry_buffers_witness :
  usable (JSON (json_holding [m1]))
  ∧ ∃ b', payloads b' = payloads (JSON (json_holding [m1])) ++ [m2]
          ∧ usable b'
          ∧ (is_connected {| up := false; script := [] |} = false →
             IoTManager.send_telemetry azure_only m2
               {| _storage := Some (JSON (json_holding [m1]));
                  _client := Some {| up := false; script := [] |};
                  wire := [] |}
             = (Ok false, {| _storage := Some b';
                             _client := Some {| up := false; script := [] |};
                             wire := [] |}))
          ∧ (∀ e', is_connected {| up := false; script := [] |} = true →
             send_telemetry {| up := false; script := [] |} m2 = (false, e') →
             IoTManager.send_telemetry azure_only m2
               {| _storage := Some (JSON (json_holding [m1]));
                  _client := Some {| up := false; script := [] |};
                  wire := [] |}
             = (Ok false, {| _storage := Some b'; _client := Some e';
                             wire := [] ++ [m2] |})).
Proof.
  assert (Hu : usable (JSON (json_holding [m1]))) by (intros Hd; discriminate Hd).
  split; [exact Hu|].
  exact (send_telemetry_buffers azure_only m2 _ {| up := false; script := [] |} [] Hu).
Defined.

(** Disconnected: the message goes to the store, nothing goes on the wire. *)
Example send_telemetry_disconnected :
  IoTManager.send_telemetry all_installed m2
    {| _storage := Some (JSON (json_holding [m1]));
       _client := Some {| up := false; script := [true] |};
       wire := [] |}
  = (Ok false, {| _storage := Some (JSON (json_holding [m1; m2]));
                  _client := Some {| up := false; script := [true] |};
                  wire := [] |}).
Proof. vm_compute. reflexivity. Qed.

(** Connected, the send fails: one call on the wire, the message stored. *)
Example send_telemetry_send_fails :
  IoTManager.send_telemetry all_installed m2
    {| _storage := Some (SQLite (sqlite_holding [Enc m1]));
       _client := Some {| up := true; script := [false] |};
       wire := [] |}
  = (Ok false, {| _storage := Some (SQLite (sqlite_holding [Enc m1; Enc m2]));
                  _client := Some {| up := true; script := [] |};
                  wire := [m2] |}).
Proof. vm_compute. reflexivity. Qed.

End SendTelemetryExamples.

(** ** Records that do not decode *)

Section Undecodable.
Import SQLiteOfflineStorage.
Variable env : imports.

(** The decoding loop keeps the rows that hold a JSON object, with their
    rowid added, and drops the others. *)
Lemma parse_rows_omap (l : list (Z * cell)) :
  parse_rows l
  = omap (λ r : Z * cell,
            match r.2 with
            | Enc (VDict payload) =>
                Some (VDict (<["_db_id" := VInt r.1]> payload))
            | _ => None
            end) l.
Proof.
  induction l as [|[i c] l IH]; [reflexivity|].
  cbn [parse_rows omap list_omap]. rewrite IH.
  by destruct c as [[]|].
Qed.

(** C6, as amended.  For the SQL backend, [load_messages] never fails on a
    bad row: of the rows it selects (all of them, or the first [limit]),
    it returns, in order, each row whose payload decodes to a JSON object,
    and skips only the others.  For the file backend there is no
    isolation by record: when the file does not decode as a whole,
    [load_messages] returns, without raising, the default list of the
    decorator, which is empty as long as no failed load has filled it;
    the records of the file that would decode are not returned. *)
Theorem drain_with_undecodable_records (t : table) (limit : Z)
    (s : JSONOfflineStorage.state) (txt : JSONOfflineStorage.text) (e : exn) :
  JSONOfflineStorage.path s = JSONOfflineStorage.Regular txt →
  JSONOfflineStorage.json_load txt = Raise e →
  JSONOfflineStorage.load_default s = [] →
  load_messages env limit (DbFile (Some t))
  = (Ok (omap (λ r : Z * cell,
                 match r.2 with
                 | Enc (VDict payload) =>
                     Some (VDict (<["_db_id" := VInt r.1]> payload))
                 | _ => None
                 end)
              (if 0 <? limit then take (Z.to_nat limit) (rows t) else rows t)),
     DbFile (Some t))
  ∧ JSONOfflineStorage.load_messages env limit s = (Ok [], s).
Proof.
  intros Hpath Hload Hdef. split.
  - rewrite load_messages_rows. by rewrite parse_rows_omap.
  - rewrite load_messages_held by (unfold JSONOfflineStorage.usable; by rewrite Hpath).
    unfold JSONOfflineStorage.held. rewrite Hpath, Hload, Hdef.
    by destruct (limit <=? 0); rewrite ?take_nil.
Qed.

End Undecodable.

Section UndecodableExamples.
Import Samples.

Lemma drain_with_undecodable_records_witness :
  JSONOfflineStorage.path torn_json
  = JSONOfflineStorage.Regular
      (JSONOfflineStorage.Array [Enc m1; Bad "{'id': 2, 'da"])
  ∧ JSONOfflineStorage.json_load
      (JSONOfflineStorage.Array [Enc m1; Bad "{'id': 2, 'da"])
    = Raise JSONDecodeError
  ∧ JSONOfflineStorage.load_default torn_json = []
  ∧ SQLiteOfflineStorage.load_messages all_installed 0
      (sqlite_holding [Enc m1; Bad "{'id': 2, 'da"; Enc m3])
    = (Ok [SQLiteOfflineStorage.with_db_id 1 m1; SQLiteOfflineStorage.with_db_id 3 m3],
       sqlite_holding [Enc m1; Bad "{'id': 2, 'da"; Enc m3])
  ∧ JSONOfflineStorage.load_messages all_installed 0 torn_json
    = (Ok [], torn_json).
Proof.
  split; [reflexivity|]. split; [reflexivity|]. split; [reflexivity|].
  exact (drain_with_undecodable_records all_installed
           {| SQLiteOfflineStorage.rows :=
                [(1, Enc m1); (2, Bad "{'id': 2, 'da"); (3, Enc m3)];
              SQLiteOfflineStorage.seq := 3 |}
           0 torn_json _ JSONDecodeError eq_refl eq_refl eq_refl).
Defined.

(** C6 fails as stated for the file backend.  The file holds an array
    whose first element decodes to [m1] and whose second element does
    not: the drain returns nothing, [m1] included. *)
Lemma json_drain_drops_decodable_record :
  JSONOfflineStorage.path torn_json
  = JSONOfflineStorage.Regular
      (JSONOfflineStorage.Array [Enc m1; Bad "{'id': 2, 'da"])
  ∧ json_loads (Enc m1) = Ok m1
  ∧ JSONOfflineStorage.load_messages all_installed 0 torn_json
    = (Ok [], torn_json).
Proof. repeat split. Qed.

End UndecodableExamples.

(** ** When the on-disk state comes to exist *)

Section Creation.
Variable env : imports.

Lemma remove_each_nil (messages : list value) (c : nat) :
  JSONOfflineStorage.remove_each messages [] c = Ok ([], c).
Proof. apply remove_each_absent, Forall_forall. reflexivity. Qed.

(** C7, as amended.  The file backend creates its file lazily: on a path
    where no file exists, constructing the backend, draining it and
    acknowledging create nothing, and the first non-empty enqueue creates
    the file with the enqueued messages.  The SQL backend creates its
    database file and its table when it is constructed.  For both
    backends, an enqueue with an empty input returns at once and leaves
    the on-disk state, whatever it is, unchanged. *)
Theorem storage_creation (s any : JSONOfflineStorage.state)
    (d : SQLiteOfflineStorage.disk) (messages acks : list value) (limit : Z) :
  JSONOfflineStorage.path s = JSONOfflineStorage.Missing →
  messages ≠ [] →
  JSONOfflineStorage.__init__ s = (Ok (), s)
  ∧ JSONOfflineStorage.load_messages env limit s = (Ok [], s)
  ∧ JSONOfflineStorage.path (JSONOfflineStorage.remove_messages env acks s).2
    = JSONOfflineStorage.Missing
  ∧ JSONOfflineStorage.path (JSONOfflineStorage.add_messages env messages s).2
    = JSONOfflineStorage.Regular (JSONOfflineStorage.json_dump messages)
  ∧ JSONOfflineStorage.add_messages env [] any = (Ok (), any)
  ∧ SQLiteOfflineStorage.add_messages env [] d = (Ok (), d)
  ∧ SQLiteOfflineStorage.__init__ env SQLiteOfflineStorage.NoFile
    = (Ok (), SQLiteOfflineStorage.DbFile
                (Some SQLiteOfflineStorage.empty_table)).
Proof.
  intros Hpath Hne.
  assert (Hu : JSONOfflineStorage.usable s)
    by (unfold JSONOfflineStorage.usable; by rewrite Hpath).
  assert (Hheld : JSONOfflineStorage.held s = [])
    by (unfold JSONOfflineStorage.held; by rewrite Hpath).
  split; [reflexivity|]. split.
  { rewrite load_messages_held by done. rewrite Hheld.
    by destruct (limit <=? 0); rewrite ?take_nil. }
  split.
  { destruct acks as [|a acks].
    - simpl. exact Hpath.
    - erewrite remove_messages_written; [|done|done|].
      2: { rewrite Hheld. apply remove_each_nil. }
      reflexivity. }
  split.
  { rewrite add_messages_written by done. rewrite Hheld, app_nil_l.
    simpl. by destruct messages. }
  repeat split.
Qed.

End Creation.

Section CreationExamples.
Import Samples.

Lemma storage_creation_witness :
  JSONOfflineStorage.path fresh_json = JSONOfflineStorage.Missing
  ∧ [m1] ≠ []
  ∧ JSONOfflineStorage.__init__ fresh_json = (Ok (), fresh_json)
  ∧ JSONOfflineStorage.load_messages all_installed 0 fresh_json
    = (Ok [], fresh_json)
  ∧ JSONOfflineStorage.path
      (JSONOfflineStorage.remove_messages all_installed [m2] fresh_json).2
    = JSONOfflineStorage.Missing
  ∧ JSONOfflineStorage.path
      (JSONOfflineStorage.add_messages all_installed [m1] fresh_json).2
    = JSONOfflineStorage.Regular (JSONOfflineStorage.json_dump [m1])
  ∧ JSONOfflineStorage.add_messages all_installed [] (json_holding [m3])
    = (Ok (), json_holding [m3])
  ∧ SQLiteOfflineStorage.add_messages all_installed []
      (sqlite_holding [Enc m1])
    = (Ok (), sqlite_holding [Enc m1])
  ∧ SQLiteOfflineStorage.__init__ all_installed SQLiteOfflineStorage.NoFile
    = (Ok (), SQLiteOfflineStorage.DbFile
                (Some SQLiteOfflineStorage.empty_table)).
Proof.
  assert (H1 : JSONOfflineStorage.path fresh_json = JSONOfflineStorage.Missing)
    by reflexivity.
  assert (H2 : [m1] ≠ []) by discriminate.
  split; [exact H1|]. split; [exact H2|].
  exact (storage_creation all_installed fresh_json (json_holding [m3])
           (sqlite_holding [Enc m1]) [m1] [m2] 0 H1 H2).
Defined.

(** C7 fails as stated for the SQL backend: constructing the backend on a
    path where nothing exists leaves a database file with an empty table
    there, before anything is enqueued. *)
Lemma sqlite_init_creates_database :
  SQLiteOfflineStorage.__init__ all_installed SQLiteOfflineStorage.NoFile
  = (Ok (), SQLiteOfflineStorage.DbFile (Some SQLiteOfflineStorage.empty_table))
  ∧ SQLiteOfflineStorage.DbFile (Some SQLiteOfflineStorage.empty_table)
    ≠ SQLiteOfflineStorage.NoFile.
Proof. split; [reflexivity|discriminate]. Qed.

End CreationExamples.

(** ** Adding, then removing what was added *)

Section AddRemove.
Import SQLiteOfflineStorage.
Variable env : imports.

(** The rows made for dictionaries decode to these dictionaries with
    their rowid, and acknowledging them binds exactly their rowids. *)
Lemma fresh_rows_parsed (seq : Z) (messages : list value) (acc : list Z) :
  Forall (λ msg, is_dict msg = true) messages →
  Forall2 (λ ack msg, ∃ row_id, ack = SQLiteOfflineStorage.with_db_id row_id msg)
    (parse_rows (fresh_rows seq messages)) messages
  ∧ collect_row_ids (parse_rows (fresh_rows seq messages)) acc
    = Ok (acc ++ (fresh_rows seq messages).*1).
Proof.
  intros Hd. revert seq acc.
  induction Hd as [|msg rest Hmsg _ IH]; intros seq acc.
  - split; [constructor|]. simpl. by rewrite app_nil_r.
  - destruct msg as [| | | | |payload]; try discriminate Hmsg.
    destruct (IH (seq + 1) (acc ++ [seq + 1])) as [Hf Hc].
    cbn [fresh_rows parse_rows]. unfold parse_row. cbn.
    split.
    + apply Forall2_cons. split; [by exists (seq + 1)|exact Hf].
    + rewrite lookup_insert_eq.
      etransitivity; [exact Hc|]. by rewrite <- app_assoc.
Qed.

Lemma filter_keep_all (P : Z * cell → Prop) `{∀ r, Decision (P r)}
    (l : list (Z * cell)) :
  (∀ r, r ∈ l → P r) → filter P l = l.
Proof.
  induction l as [|r l IH]; intros Hall; [reflexivity|].
  rewrite filter_cons_True by (apply Hall; left).
  rewrite IH; [reflexivity|]. intros r' Hr'. apply Hall. by right.
Qed.

Lemma filter_drop_all (P : Z * cell → Prop) `{∀ r, Decision (P r)}
    (l : list (Z * cell)) :
  (∀ r, r ∈ l → ¬ P r) → filter P l = [].
Proof.
  induction l as [|r l IH]; intros Hall; [reflexivity|].
  rewrite filter_cons_False by (apply Hall; left).
  apply IH. intros r' Hr'. apply Hall. by right.
Qed.

(** Deleting the rowids of the rows just inserted leaves the rows that
    were there before. *)
Lemma filter_old_rows (t : table) (messages : list value) :
  wf_table t →
  filter (λ r, r.1 ∉ (fresh_rows (seq t) messages).*1)
    (rows t ++ fresh_rows (seq t) messages)
  = rows t.
Proof.
  intros [_ Hb]. destruct (fresh_rows_ids (seq t) messages) as [Hf _].
  rewrite Forall_forall in Hb, Hf.
  rewrite filter_app, filter_keep_all, filter_drop_all.
  - apply app_nil_r.
  - intros r Hr Hn. apply Hn. apply list_elem_of_fmap. by exists r.
  - intros r Hr Hin. specialize (Hf _ Hin).
    assert (r.1 ≤ seq t) by (apply Hb, list_elem_of_fmap; by exists r). lia.
Qed.

Lemma length_fresh_rows (seq : Z) (messages : list value) :
  length (fresh_rows seq messages) = length messages.
Proof.
  revert seq. induction messages as [|m ms IH]; intros seq; [reflexivity|].
  simpl. by rewrite IH.
Qed.

(** C8, as amended.  File backend: when the backend holds no record
    before, adding any non-empty list of messages and then removing these
    messages removes all of them and leaves no file.  SQL backend: after
    adding dictionaries, the drain yields the records that were there
    followed by one record per added message (the message with its
    rowid); acknowledging these records removes as many rows as messages
    were added and leaves the table with exactly the rows it had before
    the add, so the row count is back to its pre-add value and the table
    is still there. *)
Theorem add_then_remove_all (s : JSONOfflineStorage.state) (t : table)
    (messages : list value) :
  JSONOfflineStorage.usable s → JSONOfflineStorage.held s = [] →
  messages ≠ [] →
  wf_table t → Forall (λ msg, is_dict msg = true) messages →
  (∃ s1 s2,
     JSONOfflineStorage.add_messages env messages s = (Ok (), s1)
     ∧ JSONOfflineStorage.remove_messages env messages s1
       = (Ok (length messages), s2)
     ∧ JSONOfflineStorage.path s2 = JSONOfflineStorage.Missing)
  ∧ (∃ d1 acks t2,
       add_messages env messages (DbFile (Some t)) = (Ok (), d1)
       ∧ drained d1 = drained (DbFile (Some t)) ++ acks
       ∧ Forall2 (λ ack msg, ∃ row_id, ack = SQLiteOfflineStorage.with_db_id row_id msg)
           acks messages
       ∧ remove_messages env acks d1
         = (Ok (length messages), DbFile (Some t2))
       ∧ rows t2 = rows t
       ∧ wf_table t2).
Proof.
  intros Hu Hheld Hne Hwf Hd. split.
  - eexists _, _. rewrite add_messages_written by done.
    rewrite Hheld, app_nil_l. split; [reflexivity|].
    erewrite remove_messages_written;
      [|apply usable_written|done|rewrite held_written].
    2: { rewrite <- (take_ge messages (length messages)) at 1 by lia.
         apply remove_each_prefix. }
    rewrite drop_ge, Nat.min_id by lia. split; reflexivity.
  - destruct (fresh_rows_parsed (seq t) messages [] Hd) as [Hacks Hids].
    rewrite app_nil_l in Hids.
    exists (DbFile (Some (inserted t messages))),
           (parse_rows (fresh_rows (seq t) messages)),
           {| rows := rows t; seq := seq t + Z.of_nat (length messages) |}.
    split; [apply add_messages_inserted|].
    split; [unfold drained; simpl; apply parse_rows_app|].
    split; [exact Hacks|].
    rewrite (remove_messages_rows env _ _ _ Hids).
    unfold inserted. cbn [rows seq app]. rewrite filter_old_rows by done.
    rewrite length_app, length_fresh_rows.
    split; [f_equal; f_equal; lia|]. split; [reflexivity|].
    destruct Hwf as [Hs Hb]. split; [exact Hs|]. cbn [rows seq].
    eapply Forall_impl; [exact Hb|]. intros i ?. simpl in *. lia.
Qed.

End AddRemove.

Section AddRemoveExamples.
Import Samples.

Lemma add_then_remove_all_witness :
  JSONOfflineStorage.usable fresh_json
  ∧ JSONOfflineStorage.held fresh_json = []
  ∧ [m1; m2] ≠ []
  ∧ SQLiteOfflineStorage.wf_table
      {| SQLiteOfflineStorage.rows := [(1, Enc m3)];
         SQLiteOfflineStorage.seq := 1 |}
  ∧ Forall (λ msg, is_dict msg = true) [m1; m2]
  ∧ (∃ s1 s2,
       JSONOfflineStorage.add_messages all_installed [m1; m2] fresh_json
       = (Ok (), s1)
       ∧ JSONOfflineStorage.remove_messages all_installed [m1; m2] s1
         = (Ok (length [m1; m2]), s2)
       ∧ JSONOfflineStorage.path s2 = JSONOfflineStorage.Missing)
  ∧ (∃ d1 acks t2,
       SQLiteOfflineStorage.add_messages all_installed [m1; m2]
         (SQLiteOfflineStorage.DbFile (Some
            {| SQLiteOfflineStorage.rows := [(1, Enc m3)];
               SQLiteOfflineStorage.seq := 1 |}))
       = (Ok (), d1)
       ∧ SQLiteOfflineStorage.drained d1
         = SQLiteOfflineStorage.drained
             (SQLiteOfflineStorage.DbFile (Some
                {| SQLiteOfflineStorage.rows := [(1, Enc m3)];
                   SQLiteOfflineStorage.seq := 1 |})) ++ acks
       ∧ Forall2 (λ ack msg, ∃ row_id, ack = SQLiteOfflineStorage.with_db_id row_id msg)
           acks [m1; m2]
       ∧ SQLiteOfflineStorage.remove_messages all_installed acks d1
         = (Ok (length [m1; m2]), SQLiteOfflineStorage.DbFile (Some t2))
       ∧ SQLiteOfflineStorage.rows t2 = [(1, Enc m3)]
       ∧ SQLiteOfflineStorage.wf_table t2).
Proof.
  assert (H1 : JSONOfflineStorage.usable fresh_json) by (intros Hd; discriminate Hd).
  assert (H2 : JSONOfflineStorage.held fresh_json = []) by reflexivity.
  assert (H3 : [m1; m2] ≠ []) by discriminate.
  assert (H4 : SQLiteOfflineStorage.wf_table
                 {| SQLiteOfflineStorage.rows := [(1, Enc m3)];
                    SQLiteOfflineStorage.seq := 1 |}).
  { split; simpl; [repeat constructor|].
    apply Forall_cons. split; [lia|constructor]. }
  assert (H5 : Forall (λ msg, is_dict msg = true) [m1; m2])
    by (repeat constructor).
  split; [exact H1|]. split; [exact H2|]. split; [exact H3|].
  split; [exact H4|]. split; [exact H5|].
  exact (add_then_remove_all all_installed fresh_json _ [m1; m2] H1 H2 H3 H4 H5).
Defined.

(** C8 fails as stated for the file backend when the backend already
    holds a record: [m2] is added and removed again, and the file is
    still there, holding [m1]. *)
Lemma json_file_survives_add_remove :
  ∃ s1 s2,
    JSONOfflineStorage.add_messages all_installed [m2] (json_holding [m1])
    = (Ok (), s1)
    ∧ JSONOfflineStorage.remove_messages all_installed [m2] s1 = (Ok 1%nat, s2)
    ∧ JSONOfflineStorage.path s2
      = JSONOfflineStorage.Regular (JSONOfflineStorage.json_dump [m1])
    ∧ JSONOfflineStorage.path s2 ≠ JSONOfflineStorage.Missing.
Proof.
  eexists _, _. split; [vm_compute; reflexivity|].
  split; [vm_compute; reflexivity|]. split; [reflexivity|discriminate].
Qed.

End AddRemoveExamples.

(** ** What an acknowledgement returns *)

Section Acknowledge.
Import OfflineStorageService.
Variable env : imports.

(** On dictionaries the collecting loop returns, and every rowid it
    collects comes from one of the messages. *)
Lemma collect_row_ids_dicts (messages : list value) (acc : list Z) :
  Forall (λ msg, is_dict msg = true) messages →
  ∃ ids, SQLiteOfflineStorage.collect_row_ids messages acc = Ok (acc ++ ids)
         ∧ ∀ i, i ∈ ids →
             ∃ msg, msg ∈ messages ∧ i ∈ SQLiteOfflineStorage.row_ids_of [msg].
Proof.
  intros Hd. revert acc. induction Hd as [|msg rest Hmsg _ IH]; intros acc.
  - exists []. simpl. rewrite app_nil_r. split; [reflexivity|].
    by intros i ?%elem_of_nil.
  - destruct msg as [| | | | |payload]; try discriminate Hmsg.
    cbn [SQLiteOfflineStorage.collect_row_ids dict_get].
    unfold SQLiteOfflineStorage.row_ids_of.
    cbn [SQLiteOfflineStorage.collect_row_ids dict_get].
    destruct (payload !! "_db_id") as [[| b | z | | |]|] eqn:Hid;
      try (destruct (IH acc) as (ids & -> & Hsub); exists ids;
           split; [reflexivity|];
           intros i Hi; destruct (Hsub i Hi) as (m & Hm & Hin);
           exists m; split; [by right|exact Hin]).
    + destruct (IH (acc ++ [Z.b2z b])) as (ids & -> & Hsub).
      exists (Z.b2z b :: ids). rewrite <- app_assoc. split; [reflexivity|].
      intros i [->|Hi]%elem_of_cons.
      * exists (VDict payload). split; [left|].
        simpl. rewrite Hid. simpl. left.
      * destruct (Hsub i Hi) as (m & Hm & Hin). exists m. split; [by right|done].
    + destruct (IH (acc ++ [z])) as (ids & -> & Hsub).
      exists (z :: ids). rewrite <- app_assoc. split; [reflexivity|].
      intros i [->|Hi]%elem_of_cons.
      * exists (VDict payload). split; [left|].
        simpl. rewrite Hid. simpl. left.
      * destruct (Hsub i Hi) as (m & Hm & Hin). exists m. split; [by right|done].
Qed.


End Acknowledge.

Section AcknowledgeExamples.
Import OfflineStorageService Samples.


(** One of two messages is in the store: one removal is counted. *)
Example remove_counts_json :
  remove_messages all_installed [m3; m1] (JSON (json_holding [m1; m2]))
  = (Ok 1%nat, JSON (json_holding [m2])).
Proof. vm_compute. reflexivity. Qed.

(** A rowid that is not in the table and a message without rowid are
    passed over; [True] is bound as rowid 1. *)
Example remove_counts_sqlite :
  remove_messages all_installed
    [SQLiteOfflineStorage.with_db_id 999 m3; m2;
     VDict (<["_db_id" := VBool true]> ∅)]
    (SQLite (sqlite_holding [Enc m1; Enc m2]))
  = (Ok 1%nat,
     SQLite (SQLiteOfflineStorage.DbFile (Some
       {| SQLiteOfflineStorage.rows := [(2, Enc m2)];
          SQLiteOfflineStorage.seq := 2 |}))).
Proof. vm_compute. reflexivity. Qed.

End AcknowledgeExamples.

(** ** What the decorator lets through *)

Section Decorator.

(** With [botocore] and [paho] importable, the decorator turns every
    exception into the default value. *)
Lemma wrapper_except_catches {A} (env : imports) (d : A) (e : exn) :
  botocore_installed env = true → paho_installed env = true →
  wrapper_except env d e = Ok d.
Proof.
  intros Hb Hp. unfold wrapper_except, BotoClientError_, MQTTException_,
    ClientError_. rewrite Hb, Hp.
  by destruct e, (azure_installed env).
Qed.

(** Without [botocore], [BotoClientError] is [None]: every exception that
    is not one of the four built-in classes tested first comes out of the
    decorator as a [TypeError]. *)
Lemma wrapper_except_leaks {A} (env : imports) (d : A) (e : exn) :
  botocore_installed env = false →
  isinstance e ConnectionError = false → isinstance e ValueError = false →
  isinstance e FileNotFoundError = false →
  isinstance e PermissionError = false →
  wrapper_except env d e = Raise TypeError.
Proof.
  intros Hb H1 H2 H3 H4. unfold wrapper_except, BotoClientError_.
  by rewrite H1, H2, H3, H4, Hb.
Qed.

End Decorator.

Section DecoratorExamples.
Import OfflineStorageService Samples.

(** C10 does not hold of the code.  In a process where [botocore] cannot be
    imported, with a file backend whose path is a directory or an SQL
    backend whose database has no table, the public storage operations do
    not return their default: a [TypeError] reaches the caller, through
    the backends, through the service and through the manager.  And in a
    process where every import succeeds, a drain that fails after an
    enqueue that failed returns the messages of that enqueue, not the
    empty list. *)
Theorem storage_operations_raise_type_error :
  JSONOfflineStorage.add_messages azure_only [m1] json_on_directory
  = (Raise TypeError, json_on_directory)
  ∧ JSONOfflineStorage.load_messages azure_only 0 json_on_directory
    = (Raise TypeError, json_on_directory)
  ∧ JSONOfflineStorage.remove_messages azure_only [m1] json_on_directory
    = (Raise TypeError, json_on_directory)
  ∧ SQLiteOfflineStorage.load_messages azure_only 0
      (SQLiteOfflineStorage.DbFile None)
    = (Raise TypeError, SQLiteOfflineStorage.DbFile None)
  ∧ SQLiteOfflineStorage.remove_messages azure_only
      [SQLiteOfflineStorage.with_db_id 1 m1] (SQLiteOfflineStorage.DbFile None)
    = (Raise TypeError, SQLiteOfflineStorage.DbFile None)
  ∧ add_message azure_only m1 (connected_service (JSON json_on_directory) [])
    = (Raise TypeError, connected_service (JSON json_on_directory) [])
  ∧ flush_data azure_only 1 (connected_service (JSON json_on_directory) [])
    = Some (Raise TypeError, connected_service (JSON json_on_directory) [])
  ∧ IoTManager.send_telemetry azure_only m1
      {| _storage := Some (JSON json_on_directory);
         _client := Some {| up := false; script := [] |};
         wire := [] |}
    = (Raise TypeError,
       {| _storage := Some (JSON json_on_directory);
          _client := Some {| up := false; script := [] |};
          wire := [] |})
  ∧ ∃ s, JSONOfflineStorage.add_messages all_installed [m1] json_on_directory
         = (Ok (), s)
         ∧ JSONOfflineStorage.path s = JSONOfflineStorage.Directory
         ∧ JSONOfflineStorage.load_messages all_installed 0 s = (Ok [m1], s).
Proof.
  repeat (split; [vm_compute; reflexivity|]).
  eexists. split; [vm_compute; reflexivity|].
  split; vm_compute; reflexivity.
Qed.

(** With every import successful the same calls return their defaults. *)
Example storage_operations_return_defaults :
  JSONOfflineStorage.add_messages all_installed [m1] json_on_directory
  = (Ok (), {| JSONOfflineStorage.path := JSONOfflineStorage.Directory;
               JSONOfflineStorage.load_default := [m1] |})
  ∧ JSONOfflineStorage.load_messages all_installed 0 json_on_directory
    = (Ok [], json_on_directory)
  ∧ SQLiteOfflineStorage.load_messages all_installed 0
      (SQLiteOfflineStorage.DbFile None)
    = (Ok [], SQLiteOfflineStorage.DbFile None)
  ∧ SQLiteOfflineStorage.remove_messages all_installed
      [SQLiteOfflineStorage.with_db_id 1 m1] SQLiteOfflineStorage.NoFile
    = (Ok 0%nat, SQLiteOfflineStorage.DbFile None).
Proof. repeat split. Qed.

End DecoratorExamples.

(* ================================================================== *)
(** * Part III: further properties of the code *)
(* ================================================================== *)

(** ** Drains *)

Section Drains.
Import OfflineStorageService.
Variable env : imports.

Lemma length_parse_rows (l : list (Z * cell)) :
  (length (SQLiteOfflineStorage.parse_rows l) ≤ length l)%nat.
Proof.
  induction l as [|r l IH]; simpl; [lia|].
  destruct (SQLiteOfflineStorage.parse_row r); simpl; lia.
Qed.


End Drains.

Section DrainsExamples.
Import OfflineStorageService Samples.


End DrainsExamples.

(** ** Removal by value in the file backend *)

Section RemoveByValue.
Import JSONOfflineStorage.
Variable env : imports.

Lemma list_remove_first (x : value) (l : list value) :
  py_in x l = true →
  ∃ l1 y l2, l = l1 ++ y :: l2
             ∧ py_eq y x = true
             ∧ Forall (λ z, py_eq z x = false) l1
             ∧ list_remove x l = Ok (l1 ++ l2).
Proof.
  unfold py_in. induction l as [|e l IH]; simpl; [done|].
  destruct (py_eq e x) eqn:He; simpl.
  - intros _. exists [], e, l. by repeat split.
  - intros Hin. destruct (IH Hin) as (l1 & y & l2 & -> & Hy & Hl1 & ->).
    exists (e :: l1), y, l2. repeat split; [done|by constructor].
Qed.

(** Removing one message takes out one record, the oldest one that is
    equal to the message: records before it and after it stay, also
    those equal to it. *)
Theorem remove_one_by_value (s : state) (msg : value) :
  usable s → py_in msg (held s) = true →
  ∃ l1 y l2 s',
    held s = l1 ++ y :: l2
    ∧ py_eq y msg = true
    ∧ Forall (λ z, py_eq z msg = false) l1
    ∧ remove_messages env [msg] s = (Ok 1%nat, s')
    ∧ held s' = l1 ++ l2.
Proof.
  intros Hu Hin.
  destruct (list_remove_first msg (held s) Hin)
    as (l1 & y & l2 & Hheld & Hy & Hl1 & Hrm).
  exists l1, y, l2, (written s (l1 ++ l2)).
  split; [exact Hheld|]. split; [exact Hy|]. split; [exact Hl1|].
  rewrite held_written. split; [|reflexivity].
  apply remove_messages_written; [done|done|].
  cbn [remove_each]. by rewrite Hin, Hrm.
Qed.

End RemoveByValue.

Section RemoveByValueExamples.
Import JSONOfflineStorage Samples.

Lemma remove_one_by_value_witness :
  usable (json_holding [m1; m2; m1])
  ∧ py_in m1 (held (json_holding [m1; m2; m1])) = true
  ∧ ∃ l1 y l2 s',
      held (json_holding [m1; m2; m1]) = l1 ++ y :: l2
      ∧ py_eq y m1 = true
      ∧ Forall (λ z, py_eq z m1 = false) l1
      ∧ remove_messages all_installed [m1] (json_holding [m1; m2; m1])
        = (Ok 1%nat, s')
      ∧ held s' = l1 ++ l2.
Proof.
  assert (H1 : usable (json_holding [m1; m2; m1])) by (intros Hd; discriminate Hd).
  assert (H2 : py_in m1 (held (json_holding [m1; m2; m1])) = true)
    by (vm_compute; reflexivity).
  split; [exact H1|]. split; [exact H2|].
  exact (remove_one_by_value all_installed _ m1 H1 H2).
Defined.

(** Of two equal records one is removed. *)
Example remove_duplicate :
  remove_messages all_installed [m1] (json_holding [m1; m2; m1])
  = (Ok 1%nat, json_holding [m2; m1]).
Proof. vm_compute. reflexivity. Qed.

End RemoveByValueExamples.

(** ** Flush: the whole queue, and a queue that is stuck *)

Section FlushMore.
Import OfflineStorageService.
Context {E : Type} `{IIoTClient E}.
Variable env : imports.

Lemma deliver_take (n : nat) (l : list value) (e : E) :
  (deliver (take n l) e).1 = take n (deliver l e).1.
Proof.
  revert n e. induction l as [|x l IH]; intros n e.
  - rewrite take_nil. simpl. by rewrite take_nil.
  - destruct n as [|n]; [reflexivity|]. cbn [take deliver].
    destruct (send_telemetry e x) as [sent e1]. specialize (IH n e1).
    destruct (deliver (take n l) e1), (deliver l e1). simpl in *.
    by rewrite IH.
Qed.

(** A flush from the file backend ends in the state the backend had
    before, or in a state produced by a save. *)
Lemma flush_loop_json_state (fuel : nat) (s : JSONOfflineStorage.state)
    (c c' : E * list value) (r : result unit) (b' : storage) :
  JSONOfflineStorage.usable s →
  flush_loop env fuel (JSON s) c = Some (r, (b', c')) →
  b' = JSON s ∨ ∃ s0 l, b' = JSON (JSONOfflineStorage.written s0 l).
Proof.
  revert s c. induction fuel as [|fuel IH]; intros s c Hu; [done|].
  cbn [flush_loop]. unfold load_messages, dispatch.
  rewrite (load_messages_held env s 10) by done. cbn [Z.leb Z.compare].
  destruct (take (Z.to_nat 10) (JSONOfflineStorage.held s)) as [|x batch] eqn:Hb.
  { intros [= <- <- <-]. by left. }
  destruct (send_batch (x :: batch) 0 c) as [count c1].
  destruct (0 <? count)%nat eqn:Hcount.
  - unfold remove_messages, dispatch.
    destruct (remove_each_total (take count (x :: batch))
                (JSONOfflineStorage.held s) 0) as (l & n & Hrm & _).
    assert (Hne : take count (x :: batch) ≠ []).
    { apply Nat.ltb_lt in Hcount. destruct count; [lia|done]. }
    rewrite (remove_messages_written env s _ l n Hu Hne Hrm).
    destruct (count <? length (x :: batch))%nat.
    + intros [= <- <- <-]. right. eauto.
    + intros Hloop. apply IH in Hloop; [|apply usable_written].
      destruct Hloop as [->|Hw]; [right; eauto|by right].
  - destruct (count <? length (x :: batch))%nat eqn:Hlt.
    + intros [= <- <- <-]. by left.
    + apply Nat.ltb_ge in Hcount, Hlt. simpl in Hlt. lia.
Qed.

Lemma flush_data_accepting (fuel : nat) (s : JSONOfflineStorage.state)
    (e : E) (w : list value) :
  JSONOfflineStorage.usable s → is_connected e = true →
  (length (JSONOfflineStorage.held s) < fuel)%nat →
  (deliver (JSONOfflineStorage.held s) e).1
  = replicate (length (JSONOfflineStorage.held s)) true →
  ∃ s',
    flush_data env fuel
      {| _storage := Some (JSON s); _client := Some e; wire := w |}
    = Some (Ok (), {| _storage := Some (JSON s');
                      _client := Some (deliver (JSONOfflineStorage.held s) e).2;
                      wire := w ++ JSONOfflineStorage.held s |})
    ∧ JSONOfflineStorage.held s' = []
    ∧ (JSONOfflineStorage.held s ≠ [] →
       JSONOfflineStorage.path s' = JSONOfflineStorage.Missing).
Proof.
  intros Hu Hc Hfuel Hall.
  destruct (flush_data_spec env fuel (JSON s) e w Hu Hc Hfuel)
    as (k & n & b' & e' & Hflush & Hdel & Hkn & Hn & Hd & Hcount & Hu' & Hend).
  cbn [drained] in *. set (l := JSONOfflineStorage.held s) in *.
  (* no send failed *)
  assert (Hnk : n = k).
  { pose proof (deliver_take n l e) as Ht. rewrite Hdel, Hall in Ht.
    cbn [fst] in Ht. rewrite take_replicate in Ht.
    destruct (decide (n = k)) as [|Hne]; [done|]. exfalso.
    assert (Hin : false ∈ replicate k true ++ replicate (n - k) false).
    { apply elem_of_app. right. apply elem_of_replicate. split; [done|lia]. }
    rewrite Ht in Hin. by apply elem_of_replicate in Hin as [? _]. }
  subst n. specialize (Hend eq_refl).
  (* the next batch is empty: the queue is exhausted *)
  destruct b' as [s'|d'].
  2: { exfalso. unfold flush_data in Hflush. cbn [_storage _client wire] in Hflush.
       rewrite Hc in Hflush.
       destruct (flush_loop env fuel (JSON s) (e, w)) as [[r [b1 [e1 w1]]]|] eqn:Hl;
         [|done].
       apply flush_loop_json_state in Hl as [->|(s0 & l0 & ->)]; [| |done].
       all: destruct r; simplify_eq. }
  cbn [drained usable] in *.
  unfold load_messages, dispatch in Hend.
  rewrite (load_messages_held env s' 10) in Hend by done. cbn in Hend.
  assert (Hs' : JSONOfflineStorage.held s' = []).
  { destruct (JSONOfflineStorage.held s'); [done|]. simpl in Hend. congruence. }
  assert (Hk : k = length l).
  { rewrite Hs' in Hd. symmetry in Hd. apply (f_equal length) in Hd.
    rewrite length_drop in Hd. simpl in Hd. lia. }
  subst k. rewrite take_ge in Hflush, Hdel by lia.
  exists s'. split.
  { rewrite Hflush. do 4 f_equal. by rewrite Hdel. }
  split; [exact Hs'|]. intros Hne.
  unfold flush_data in Hflush. cbn [_storage _client wire] in Hflush.
  rewrite Hc in Hflush.
  destruct (flush_loop env fuel (JSON s) (e, w)) as [[r [b1 [e1 w1]]]|] eqn:Hl;
    [|done].
  assert (b1 = JSON s') as -> by (destruct r; simplify_eq; done).
  apply flush_loop_json_state in Hl as [Heq|(s0 & l0 & Heq)]; [| |done].
  - injection Heq as <-. destruct (Hne Hs').
  - injection Heq as ->. rewrite held_written in Hs'. by subst l0.
Qed.

(** When the endpoint accepts every record of a file backend's queue, a
    flush sends the whole queue in order, and the backend holds nothing
    afterwards. *)
Theorem flush_sends_whole_queue (fuel : nat) (s : JSONOfflineStorage.state)
    (e : E) (w : list value) :
  JSONOfflineStorage.usable s → is_connected e = true →
  (length (JSONOfflineStorage.held s) < fuel)%nat →
  (deliver (JSONOfflineStorage.held s) e).1
  = replicate (length (JSONOfflineStorage.held s)) true →
  ∃ s',
    flush_data env fuel
      {| _storage := Some (JSON s); _client := Some e; wire := w |}
    = Some (Ok (), {| _storage := Some (JSON s');
                      _client := Some (deliver (JSONOfflineStorage.held s) e).2;
                      wire := w ++ JSONOfflineStorage.held s |})
    ∧ JSONOfflineStorage.held s' = []
    ∧ (JSONOfflineStorage.held s ≠ [] →
       JSONOfflineStorage.path s' = JSONOfflineStorage.Missing).
Proof. apply flush_data_accepting. Qed.

(** A queue of the SQL backend whose oldest ten rows do not decode to an
    object is stuck: a flush sends nothing and removes nothing, whatever
    the rows behind them hold. *)
Theorem sqlite_flush_blocked (fuel : nat) (t : SQLiteOfflineStorage.table)
    (e : E) (w : list value) :
  is_connected e = true → (0 < fuel)%nat →
  Forall (λ r : Z * cell, ∀ payload, r.2 ≠ Enc (VDict payload))
    (take 10 (SQLiteOfflineStorage.rows t)) →
  flush_data env fuel
    {| _storage := Some (SQLite (SQLiteOfflineStorage.DbFile (Some t)));
       _client := Some e; wire := w |}
  = Some (Ok (),
          {| _storage := Some (SQLite (SQLiteOfflineStorage.DbFile (Some t)));
             _client := Some e; wire := w |}).
Proof.
  intros Hc Hfuel Hbad. destruct fuel as [|fuel]; [lia|].
  unfold flush_data. cbn [_storage _client wire]. rewrite Hc.
  cbn [flush_loop]. unfold load_messages, dispatch.
  rewrite load_messages_rows. cbn [Z.ltb Z.compare].
  change (Z.to_nat 10) with 10%nat.
  assert (Hnil : SQLiteOfflineStorage.parse_rows
                   (take 10 (SQLiteOfflineStorage.rows t)) = []).
  { rewrite parse_rows_omap.
    induction Hbad as [|r l Hr _ IH]; [reflexivity|].
    cbn [omap list_omap]. rewrite IH.
    destruct r as [i [[]|]]; try reflexivity. by destruct (Hr d). }
  by rewrite Hnil.
Qed.

End FlushMore.

Section FlushMoreExamples.
Import OfflineStorageService Samples More.

Lemma flush_sends_whole_queue_witness :
  JSONOfflineStorage.usable (json_holding [m1; m2; m3])
  ∧ is_connected (accepting 3) = true
  ∧ (length (JSONOfflineStorage.held (json_holding [m1; m2; m3])) < 4)%nat
  ∧ (deliver (JSONOfflineStorage.held (json_holding [m1; m2; m3])) (accepting 3)).1
    = replicate (length (JSONOfflineStorage.held (json_holding [m1; m2; m3]))) true
  ∧ ∃ s',
      flush_data azure_only 4
        {| _storage := Some (JSON (json_holding [m1; m2; m3]));
           _client := Some (accepting 3); wire := [] |}
      = Some (Ok (),
              {| _storage := Some (JSON s');
                 _client := Some (deliver (JSONOfflineStorage.held
                                             (json_holding [m1; m2; m3]))
                                    (accepting 3)).2;
                 wire := [] ++ JSONOfflineStorage.held (json_holding [m1; m2; m3]) |})
      ∧ JSONOfflineStorage.held s' = []
      ∧ (JSONOfflineStorage.held (json_holding [m1; m2; m3]) ≠ [] →
         JSONOfflineStorage.path s' = JSONOfflineStorage.Missing).
Proof.
  assert (H1 : JSONOfflineStorage.usable (json_holding [m1; m2; m3]))
    by (intros Hd; discriminate Hd).
  assert (H2 : is_connected (accepting 3) = true) by reflexivity.
  assert (H3 : (length (JSONOfflineStorage.held (json_holding [m1; m2; m3])) < 4)%nat)
    by (vm_compute; lia).
  assert (H4 : (deliver (JSONOfflineStorage.held (json_holding [m1; m2; m3]))
                  (accepting 3)).1
               = replicate (length (JSONOfflineStorage.held
                                      (json_holding [m1; m2; m3]))) true)
    by (vm_compute; reflexivity).
  split; [exact H1|]. split; [exact H2|]. split; [exact H3|]. split; [exact H4|].
  exact (flush_sends_whole_queue azure_only 4 _ _ [] H1 H2 H3 H4).
Defined.

(** Fifteen records go out in two batches, in order, and the file is
    removed. *)
Example flush_two_batches :
  let queue := (λ i : nat, reading (Z.of_nat i) "r") <$> seq 0 15 in
  flush_data all_installed 16
    {| _storage := Some (JSON (json_holding queue));
       _client := Some (accepting 20); wire := [] |}
  = Some (Ok (), {| _storage := Some (JSON fresh_json);
                    _client := Some (accepting 5); wire := queue |}).
Proof. vm_compute. reflexivity. Qed.

Lemma sqlite_flush_blocked_witness :
  is_connected (accepting 1) = true
  ∧ (0 < 5)%nat
  ∧ Forall (λ r : Z * cell, ∀ payload, r.2 ≠ Enc (VDict payload))
      (take 10 (SQLiteOfflineStorage.rows blocked_table))
  ∧ SQLiteOfflineStorage.drained (SQLiteOfflineStorage.DbFile (Some blocked_table))
    = [SQLiteOfflineStorage.with_db_id 11 m1]
  ∧ flush_data all_installed 5
      {| _storage := Some (SQLite (SQLiteOfflineStorage.DbFile (Some blocked_table)));
         _client := Some (accepting 1); wire := [] |}
    = Some (Ok (),
            {| _storage := Some (SQLite (SQLiteOfflineStorage.DbFile
                                           (Some blocked_table)));
               _client := Some (accepting 1); wire := [] |}).
Proof.
  assert (H1 : is_connected (accepting 1) = true) by reflexivity.
  assert (H2 : (0 < 5)%nat) by lia.
  assert (H3 : Forall (λ r : Z * cell, ∀ payload, r.2 ≠ Enc (VDict payload))
                 (take 10 (SQLiteOfflineStorage.rows blocked_table))).
  { cbn. repeat (apply Forall_cons; split; [intros payload; discriminate|]).
    constructor. }
  split; [exact H1|]. split; [exact H2|]. split; [exact H3|].
  split; [vm_compute; reflexivity|].
  exact (sqlite_flush_blocked all_installed 5 blocked_table _ [] H1 H2 H3).
Defined.

End FlushMoreExamples.

(** ** The SQL backend: round trip and rowids *)

Section SQLiteMore.
Import SQLiteOfflineStorage.
Variable env : imports.

(** Round trip.  Dictionaries that have no field ["_db_id"] come back from
    a drain after the records that were there, in the order of their
    enqueueing, and equal to what was enqueued once the field added by
    the drain is taken off. *)
Theorem sqlite_round_trip (t : table) (messages : list value) :
  Forall (λ msg, ∃ d, msg = VDict d ∧ d !! "_db_id" = None) messages →
  ∃ d1 acks,
    add_messages env messages (DbFile (Some t)) = (Ok (), d1)
    ∧ load_messages env 0 d1 = (Ok (drained (DbFile (Some t)) ++ acks), d1)
    ∧ More.without_db_id <$> acks = messages.
Proof.
  intros Hm.
  exists (DbFile (Some (inserted t messages))),
         (parse_rows (fresh_rows (seq t) messages)).
  split; [apply add_messages_inserted|].
  split; [rewrite load_messages_rows; cbn; by rewrite parse_rows_app|].
  generalize (seq t). induction Hm as [|msg rest (d & -> & Hd) _ IH]; intros z.
  - reflexivity.
  - cbn [fresh_rows parse_rows]. unfold parse_row. cbn.
    rewrite IH. f_equal. f_equal.
    rewrite delete_insert_eq. by apply delete_id.
Qed.

(** The three operations keep the invariant of the table: rowids are
    distinct, ascending, and none exceeds the largest rowid handed out. *)
Theorem sqlite_operations_keep_table (d : disk) (messages : list value)
    (limit : Z) :
  usable d →
  usable (add_messages env messages d).2
  ∧ usable (load_messages env limit d).2
  ∧ usable (remove_messages env messages d).2.
Proof.
  destruct d as [|[t|]]; try done. intros Hu.
  split; [rewrite add_messages_inserted; by apply wf_table_inserted|].
  split; [by rewrite load_messages_rows|].
  unfold remove_messages, handle_exceptions.
  destruct messages as [|m ms]; [done|].
  destruct (collect_row_ids (m :: ms) []) as [[|i ids]|e]; try done.
  cbn. by apply wf_table_filter.
Qed.

(** Rowids are not used twice: whatever was removed before, the rows
    made by an enqueue get rowids above every rowid the table held, and
    the rows that were there are kept as they are. *)
Theorem sqlite_rowids_fresh (t : table) (acks messages : list value) :
  wf_table t → Forall (λ msg, is_dict msg = true) acks →
  ∃ t1 t2,
    remove_messages env acks (DbFile (Some t)) = (Ok (length (rows t) - length (rows t1))%nat, DbFile (Some t1))
    ∧ add_messages env messages (DbFile (Some t1)) = (Ok (), DbFile (Some t2))
    ∧ rows t2 = rows t1 ++ fresh_rows (seq t) messages
    ∧ length (fresh_rows (seq t) messages) = length messages
    ∧ Forall (λ new, Forall (λ old, old < new) (rows t).*1)
        (fresh_rows (seq t) messages).*1.
Proof.
  intros [Hs Hb] Hd.
  destruct (collect_row_ids_dicts acks [] Hd) as (ids & Hc & _).
  rewrite app_nil_l in Hc.
  exists {| rows := filter (λ r, r.1 ∉ ids) (rows t); seq := seq t |}.
  eexists.
  rewrite (remove_messages_rows env t acks ids Hc).
  split; [reflexivity|]. rewrite add_messages_inserted.
  split; [reflexivity|]. split; [reflexivity|].
  split; [apply length_fresh_rows|].
  destruct (fresh_rows_ids (seq t) messages) as [Hf _].
  eapply Forall_impl; [exact Hf|]. intros new Hnew.
  eapply Forall_impl; [exact Hb|]. intros old Hold. simpl in *. lia.
Qed.

End SQLiteMore.

Section SQLiteMoreExamples.
Import SQLiteOfflineStorage Samples.

Lemma sqlite_round_trip_witness :
  Forall (λ msg, ∃ d, msg = VDict d ∧ d !! "_db_id" = None) [m1; m2]
  ∧ ∃ d1 acks,
      add_messages all_installed [m1; m2] (sqlite_holding [Enc m3]) = (Ok (), d1)
      ∧ load_messages all_installed 0 d1
        = (Ok (drained (sqlite_holding [Enc m3]) ++ acks), d1)
      ∧ More.without_db_id <$> acks = [m1; m2].
Proof.
  assert (H1 : Forall (λ msg, ∃ d, msg = VDict d ∧ d !! "_db_id" = None) [m1; m2]).
  { repeat (apply Forall_cons; split; [eexists; split; [reflexivity|];
                                       vm_compute; reflexivity|]).
    constructor. }
  split; [exact H1|].
  exact (sqlite_round_trip all_installed _ [m1; m2] H1).
Defined.

(** A message that brings its own ["_db_id"] does not come back as it
    went in: the drain overwrites the field with the rowid. *)
Example sqlite_overwrites_db_id :
  (load_messages all_installed 0
     (add_messages all_installed [with_db_id 77 m1] (DbFile (Some empty_table))).2).1
  = Ok [with_db_id 1 m1].
Proof. vm_compute. reflexivity. Qed.

Lemma sqlite_operations_keep_table_witness :
  usable (sqlite_holding [Enc m1])
  ∧ usable (add_messages all_installed [m2] (sqlite_holding [Enc m1])).2
  ∧ usable (load_messages all_installed 1 (sqlite_holding [Enc m1])).2
  ∧ usable (remove_messages all_installed [m2] (sqlite_holding [Enc m1])).2.
Proof.
  assert (Hu : usable (sqlite_holding [Enc m1])).
  { split; simpl; [repeat constructor|].
    apply Forall_cons. split; [lia|constructor]. }
  split; [exact Hu|].
  exact (sqlite_operations_keep_table all_installed _ [m2] 1 Hu).
Defined.

Lemma sqlite_rowids_fresh_witness :
  wf_table {| rows := [(1, Enc m1); (2, Enc m2)]; seq := 2 |}
  ∧ Forall (λ msg, is_dict msg = true) [with_db_id 2 m2]
  ∧ ∃ t1 t2,
      remove_messages all_installed [with_db_id 2 m2]
        (DbFile (Some {| rows := [(1, Enc m1); (2, Enc m2)]; seq := 2 |}))
      = (Ok (length [(1, Enc m1); (2, Enc m2)] - length (rows t1))%nat,
         DbFile (Some t1))
      ∧ add_messages all_installed [m3] (DbFile (Some t1))
        = (Ok (), DbFile (Some t2))
      ∧ rows t2 = rows t1 ++ fresh_rows 2 [m3]
      ∧ length (fresh_rows 2 [m3]) = length [m3]
      ∧ Forall (λ new, Forall (λ old, old < new) [1; 2]) (fresh_rows 2 [m3]).*1.
Proof.
  assert (H1 : wf_table {| rows := [(1, Enc m1); (2, Enc m2)]; seq := 2 |}).
  { split; simpl.
    - constructor; [repeat constructor|].
      apply Forall_cons. split; [lia|constructor].
    - repeat (apply Forall_cons; split; [lia|]). constructor. }
  assert (H2 : Forall (λ msg, is_dict msg = true) [with_db_id 2 m2])
    by (repeat constructor).
  split; [exact H1|]. split; [exact H2|].
  exact (sqlite_rowids_fresh all_installed _ [with_db_id 2 m2] [m3] H1 H2).
Defined.

(** After the newest row was removed its rowid is not given again. *)
Example sqlite_rowid_after_remove :
  (add_messages all_installed [m3]
     (remove_messages all_installed [with_db_id 2 m2]
        (sqlite_holding [Enc m1; Enc m2])).2).2
  = DbFile (Some {| rows := [(1, Enc m1); (3, Enc m3)]; seq := 3 |}).
Proof. vm_compute. reflexivity. Qed.

End SQLiteMoreExamples.

(** ** Reconnection on any network *)

Section ReconnectMore.
Import ProviderClient.
Variable env : imports.







End ReconnectMore.

Section ReconnectMoreExamples.
Import ProviderClient Samples.

(** A connected client, and a client told to retry zero times, are left
    alone. *)
Example reconnect_nothing_to_do :
  reconnect all_installed 0 offline_client = (Ok false, offline_client)
  ∧ reconnect all_installed (-2) offline_client = (Ok false, offline_client).
Proof. split; vm_compute; reflexivity. Qed.


End ReconnectMoreExamples.

(** ** Configuration lookups *)

Section Strings.

Lemma string_app_cons (x : Ascii.ascii) (a b : string) :
  String x a +:+ b = String x (a +:+ b).
Proof. reflexivity. Qed.

Lemma string_app_empty_l (a : string) : "" +:+ a = a.
Proof. reflexivity. Qed.

Lemma string_app_assoc (a b c : string) : (a +:+ b) +:+ c = a +:+ (b +:+ c).
Proof.
  induction a as [|x a IH]; [done|]. rewrite !string_app_cons. by rewrite IH.
Qed.

Lemma string_app_empty_r (a : string) : a +:+ "" = a.
Proof. induction a as [|x a IH]; [done|]. rewrite string_app_cons. by rewrite IH. Qed.

Lemma contains_app (c : Ascii.ascii) (a b : string) :
  Str.contains c (a +:+ b) = Str.contains c a || Str.contains c b.
Proof.
  induction a as [|x a IH]; [done|]. rewrite string_app_cons.
  cbn [Str.contains]. rewrite IH. by rewrite orb_assoc.
Qed.

(** A stretch of text without separator goes to the current field. *)
Lemma split_from_app (sep : Ascii.ascii) (w s word : string) :
  Str.contains sep w = false →
  Str.split_from sep (w +:+ s) word = Str.split_from sep s (word +:+ w).
Proof.
  revert word. induction w as [|x w IH]; intros word.
  - by rewrite string_app_empty_r, string_app_empty_l.
  - cbn [Str.contains]. intros Hw. apply orb_false_elim in Hw as [Hx Hw].
    rewrite string_app_cons. cbn [Str.split_from].
    rewrite Hx, IH by done. by rewrite string_app_assoc.
Qed.

Lemma split_from_join (sep : Ascii.ascii) (key : string) (keys : list string)
    (word : string) :
  Forall (λ k, Str.contains sep k = false) (key :: keys) →
  Str.split_from sep (Str.join sep (key :: keys)) word = (word +:+ key) :: keys.
Proof.
  revert key word. induction keys as [|key' keys IH]; intros key word Hk.
  - apply Forall_cons in Hk as [Hk _]. cbn [Str.join].
    rewrite <- (string_app_empty_r key) at 1.
    by rewrite split_from_app.
  - apply Forall_cons in Hk as [Hk Hrest].
    change (Str.join sep (key :: key' :: keys))
      with (key +:+ String sep (Str.join sep (key' :: keys))).
    rewrite split_from_app by done. cbn [Str.split_from].
    rewrite Ascii.eqb_refl. by rewrite IH.
Qed.

(** No field of a split holds the separator. *)
Lemma split_from_fields (sep : Ascii.ascii) (s word : string) :
  Str.contains sep word = false →
  Forall (λ k, Str.contains sep k = false) (Str.split_from sep s word).
Proof.
  revert word. induction s as [|x s IH]; intros word Hw; cbn [Str.split_from].
  - by constructor.
  - destruct (Ascii.eqb x sep) eqn:Hx.
    + constructor; [done|]. by apply IH.
    + apply IH. rewrite contains_app, Hw. cbn [Str.contains orb]. by rewrite Hx.
Qed.

Lemma split_from_nonempty (sep : Ascii.ascii) (s word : string) :
  Str.split_from sep s word ≠ [].
Proof.
  revert word. induction s as [|x s IH]; intros word; cbn [Str.split_from]; [done|].
  destruct (Ascii.eqb x sep); [done|apply IH].
Qed.

End Strings.

Section Config.
Import ConfigLoader.

Lemma walk_at_path (keys : list string) (config default v : value) :
  at_path keys config v → walk keys config default = v.
Proof.
  induction 1 as [|key keys d inner v Hkey _ IH]; [done|].
  cbn [walk]. by rewrite Hkey.
Qed.

Lemma walk_default (keys : list string) (config default : value) :
  (∀ v, ¬ at_path keys config v) → walk keys config default = default.
Proof.
  revert config. induction keys as [|key keys IH]; intros config Hno.
  - destruct (Hno config). constructor.
  - cbn [walk]. destruct config as [| | | | |d]; try done.
    destruct (d !! key) as [inner|] eqn:Hkey; [|done].
    apply IH. intros v Hv. apply (Hno v). by econstructor.
Qed.

(** A dotted path names the value found by following its components,
    one dictionary after the other; when the components lead nowhere,
    for a missing key or for a value on the way that is not a
    dictionary, the result is the default. *)
Theorem get_nested_value_at_path (keys : list string)
    (config default : value) :
  keys ≠ [] → Forall (λ k, Str.contains "." k = false) keys →
  (∀ v, at_path keys config v →
        get_nested_value (Str.join "." keys) default config = v)
  ∧ ((∀ v, ¬ at_path keys config v) →
     get_nested_value (Str.join "." keys) default config = default).
Proof.
  intros Hne Hkeys. destruct keys as [|key keys]; [done|].
  unfold get_nested_value, Str.split. rewrite split_from_join by done.
  rewrite string_app_empty_l. split.
  - intros v. apply walk_at_path.
  - apply walk_default.
Qed.

(** A configuration key that contains a dot cannot be addressed: no
    path reaches what is stored under it at the top of the
    configuration. *)
Theorem dotted_key_unreachable (path key : string) (d : gmap string value)
    (default v : value) :
  Str.contains "." key = true →
  get_nested_value path default (VDict (<[key := v]> d))
  = get_nested_value path default (VDict (delete key d)).
Proof.
  intros Hkey. unfold get_nested_value, Str.split.
  pose proof (split_from_fields "." path "" eq_refl) as Hf.
  destruct (Str.split_from "." path "") as [|k keys] eqn:Hs.
  { by apply split_from_nonempty in Hs. }
  apply Forall_cons in Hf as [Hk _]. cbn [walk].
  assert (k ≠ key) by (intros ->; congruence).
  by rewrite lookup_insert_ne, lookup_delete_ne.
Qed.

End Config.

Section ConfigExamples.
Import ConfigLoader.

Lemma get_nested_value_at_path_witness :
  ["sensor"; "read_interval"] ≠ []
  ∧ Forall (λ k, Str.contains "." k = false) ["sensor"; "read_interval"]
  ∧ (∀ v, at_path ["sensor"; "read_interval"]
            (VDict {[ "sensor" := VDict {[ "read_interval" := VNone ]} ]}) v →
          get_nested_value (Str.join "." ["sensor"; "read_interval"]) (VInt 300)
            (VDict {[ "sensor" := VDict {[ "read_interval" := VNone ]} ]}) = v)
  ∧ ((∀ v, ¬ at_path ["sensor"; "read_interval"]
               (VDict {[ "sensor" := VDict {[ "read_interval" := VNone ]} ]}) v) →
     get_nested_value (Str.join "." ["sensor"; "read_interval"]) (VInt 300)
       (VDict {[ "sensor" := VDict {[ "read_interval" := VNone ]} ]}) = VInt 300).
Proof.
  assert (H1 : ["sensor"; "read_interval"] ≠ []) by discriminate.
  assert (H2 : Forall (λ k, Str.contains "." k = false) ["sensor"; "read_interval"])
    by (repeat constructor).
  split; [exact H1|]. split; [exact H2|].
  exact (get_nested_value_at_path ["sensor"; "read_interval"] _ (VInt 300) H1 H2).
Defined.

(** A key that is present with the value [null] gives [None], not the
    default; a section that is not a dictionary gives the default. *)
Example get_nested_value_null :
  get_nested_value "sensor.read_interval" (VInt 300)
    (VDict {[ "sensor" := VDict {[ "read_interval" := VNone ]} ]}) = VNone
  ∧ get_nested_value "sensor.read_interval" (VInt 300)
      (VDict {[ "sensor" := VInt 5 ]}) = VInt 300.
Proof. split; vm_compute; reflexivity. Qed.

Lemma dotted_key_unreachable_witness :
  Str.contains "." "a.b" = true
  ∧ get_nested_value "a.b" VNone (VDict (<["a.b" := VInt 1]> ∅))
    = get_nested_value "a.b" VNone (VDict (delete "a.b" ∅)).
Proof.
  assert (H1 : Str.contains "." "a.b" = true) by reflexivity.
  split; [exact H1|].
  exact (dotted_key_unreachable "a.b" "a.b" ∅ VNone (VInt 1) H1).
Defined.

End ConfigExamples.

(** ** Flattening of sensor data *)

Section Flatten.
Import TelemetryPreprocessor.

Lemma tree_induction (P : tree → Prop) :
  (∀ v, P (Leaf v)) →
  (∀ entries, Forall (λ e, P e.2) entries → P (Node entries)) →
  ∀ t, P t.
Proof.
  intros Hleaf Hnode. fix IH 1. intros [v|entries]; [apply Hleaf|].
  apply Hnode.
  exact ((fix go (l : list (string * tree)) : Forall (λ e, P e.2) l :=
            match l with
            | [] => Forall_nil_2 _
            | (k, t) :: rest => Forall_cons_2 (λ e, P e.2) (k, t) rest (IH t) (go rest)
            end) entries).
Qed.

Lemma flatten_dict_node (entries : list (string * tree)) (parent_key : string) :
  flatten_dict (Node entries) parent_key
  = foldl (turn flatten_dict parent_key) ∅ entries.
Proof.
  cbn [flatten_dict]. generalize (∅ : gmap string value).
  induction entries as [|[k v] rest IH]; intros items; [done|].
  cbn [foldl]. rewrite <- IH. unfold turn. cbn [fst snd]. by destruct v.
Qed.

Lemma leaves_node (entries : list (string * tree)) (parent_key : string) :
  leaves (Node entries) parent_key
  = entries ≫= λ e, leaves e.2 (new_key parent_key e.1).
Proof.
  cbn [leaves]. induction entries as [|[k v] rest IH]; [done|].
  cbn [mbind list_bind fst snd]. by rewrite <- IH.
Qed.

(** What the entries of a dictionary add to [items], when each entry
    adds its own leaves. *)
Definition adds_leaves (t : tree) : Prop :=
  ∀ parent_key key items,
    (∀ k v, turn flatten_dict parent_key items (key, t) !! k = Some v →
            (k, v) ∈ leaves t (new_key parent_key key) ∨ items !! k = Some v)
    ∧ (∀ k, is_Some (turn flatten_dict parent_key items (key, t) !! k)
            ↔ k ∈ (leaves t (new_key parent_key key)).*1 ∨ is_Some (items !! k)).

Lemma foldl_turn (entries : list (string * tree)) (parent_key : string)
    (items : gmap string value) :
  Forall (λ e, adds_leaves e.2) entries →
  (∀ k v, foldl (turn flatten_dict parent_key) items entries !! k = Some v →
          (k, v) ∈ (entries ≫= λ e, leaves e.2 (new_key parent_key e.1))
          ∨ items !! k = Some v)
  ∧ (∀ k, is_Some (foldl (turn flatten_dict parent_key) items entries !! k)
          ↔ k ∈ (entries ≫= λ e, leaves e.2 (new_key parent_key e.1)).*1
            ∨ is_Some (items !! k)).
Proof.
  intros Hall. revert items.
  induction Hall as [|[key t] rest Ht _ IH]; intros items.
  - cbn. split; [by right|]. intros k. rewrite elem_of_nil. tauto.
  - cbn [foldl mbind list_bind fst snd].
    destruct (IH (turn flatten_dict parent_key items (key, t))) as [IH1 IH2].
    destruct (Ht parent_key key items) as [Ht1 Ht2]. split.
    + intros k v Hk. apply IH1 in Hk as [Hk|Hk].
      * left. apply elem_of_app. by right.
      * apply Ht1 in Hk as [Hk|Hk]; [|by right].
        left. apply elem_of_app. by left.
    + intros k. rewrite IH2, Ht2, fmap_app, elem_of_app. tauto.
Qed.

Lemma adds_leaves_all (t : tree) : adds_leaves t.
Proof.
  revert t. apply tree_induction.
  - intros x parent_key key items. unfold turn. cbn [fst snd].
    cbn [leaves fmap list_fmap fst]. split.
    + intros k v. rewrite lookup_insert_Some, list_elem_of_singleton.
      intros [[<- <-]|[_ Hk]]; [by left|by right].
    + intros k. rewrite lookup_insert_is_Some', list_elem_of_singleton.
      split; (intros [Hk|Hk]; [left; congruence|by right]).
  - intros entries IH parent_key key items. unfold turn. cbn [fst snd].
    rewrite flatten_dict_node, leaves_node.
    destruct (foldl_turn entries (new_key parent_key key) ∅ IH) as [H1 H2].
    split.
    + intros k v. rewrite lookup_union_Some_raw.
      intros [Hk|[_ Hk]]; [|by right].
      apply H1 in Hk as [Hk|Hk]; [by left|]. by rewrite lookup_empty in Hk.
    + intros k. rewrite lookup_union_is_Some, H2, lookup_empty.
      rewrite is_Some_alt. tauto.
Qed.

Lemma replace_dot (s : string) :
  Str.contains "." (Str.replace "." "_" s) = false.
Proof.
  induction s as [|c s IH]; [done|]. cbn [Str.replace Str.contains].
  rewrite IH, orb_false_r. by destruct (Ascii.eqb c ".") eqn:Hc.
Qed.

Lemma replace_absent (old new : Ascii.ascii) (s : string) :
  Str.contains old s = false → Str.replace old new s = s.
Proof.
  induction s as [|c s IH]; [done|]. cbn [Str.replace Str.contains].
  intros Hs. apply orb_false_elim in Hs as [Hc Hs]. by rewrite Hc, IH.
Qed.

Lemma new_key_dot (parent_key k : string) :
  Str.contains "." parent_key = false →
  Str.contains "." (new_key parent_key k) = false.
Proof.
  intros Hp. unfold new_key. destruct parent_key as [|c p]; [apply replace_dot|].
  by rewrite !contains_app, Hp, replace_dot.
Qed.

Lemma leaves_dot (t : tree) :
  ∀ key, Str.contains "." key = false →
         Forall (λ kv, Str.contains "." kv.1 = false) (leaves t key).
Proof.
  revert t.
  apply (tree_induction
           (λ t, ∀ key, Str.contains "." key = false →
                        Forall (λ kv, Str.contains "." kv.1 = false)
                          (leaves t key))).
  - intros x key Hkey. cbn [leaves]. constructor; [exact Hkey|constructor].
  - intros entries IH key Hkey. rewrite leaves_node.
    induction IH as [|[k t] rest Ht _ IHrest]; [constructor|].
    cbn [mbind list_bind fst snd]. apply Forall_app. split; [|exact IHrest].
    apply Ht. by apply new_key_dot.
Qed.

(** The flattened dictionary has an entry under every key that the way
    to a value that is not a dictionary spells, the keys on the way
    joined by ["_"] and their dots replaced by ["_"]; it has no other
    entry, each entry holds one of the values that go under its key, and
    no key holds a dot.  A nested dictionary that is empty leaves
    nothing. *)
Theorem flatten_keys_values (data : list (string * tree)) :
  (∀ k v, _flatten_data data !! k = Some v → (k, v) ∈ leaves (Node data) "")
  ∧ (∀ k, is_Some (_flatten_data data !! k) ↔ k ∈ (leaves (Node data) "").*1)
  ∧ (∀ k, is_Some (_flatten_data data !! k) → Str.contains "." k = false).
Proof.
  unfold _flatten_data. rewrite flatten_dict_node, leaves_node.
  destruct (foldl_turn data "" ∅ (Forall_true _ _ (λ e, adds_leaves_all e.2)))
    as [H1 H2].
  assert (Hkeys : ∀ k, is_Some (foldl (turn flatten_dict "") ∅ data !! k)
                       ↔ k ∈ (data ≫= λ e, leaves e.2 (new_key "" e.1)).*1).
  { intros k. rewrite H2, lookup_empty, is_Some_alt. tauto. }
  split; [|split].
  - intros k v Hk. apply H1 in Hk as [Hk|Hk]; [done|].
    by rewrite lookup_empty in Hk.
  - exact Hkeys.
  - intros k Hk. apply Hkeys in Hk.
    apply list_elem_of_fmap in Hk as ([k' v] & -> & Hk).
    rewrite <- leaves_node in Hk.
    pose proof (leaves_dot (Node data) "" eq_refl) as Hall.
    rewrite Forall_forall in Hall. exact (Hall _ Hk).
Qed.

Lemma foldl_turn_plain (data : list (string * value))
    (items : gmap string value) :
  NoDup data.*1 → Forall (λ e, Str.contains "." e.1 = false) data →
  foldl (turn flatten_dict "") items (plain data) = list_to_map data ∪ items.
Proof.
  revert items. induction data as [|[k x] data IH]; intros items Hnd Hdot.
  - cbn. by rewrite (left_id_L ∅ (∪)).
  - rewrite fmap_cons in Hnd. cbn [fst] in Hnd.
    apply NoDup_cons in Hnd as [Hk Hnd]. apply Forall_cons in Hdot as [Hdot Hrest].
    cbn [fst] in Hdot.
    cbn [plain fmap list_fmap foldl]. fold (plain data). rewrite IH by done.
    unfold turn, prod_map. cbn [fst snd id]. unfold new_key.
    rewrite replace_absent by done. cbn [list_to_map foldr fst snd].
    rewrite <- insert_union_l. symmetry. apply insert_union_r.
    by apply not_elem_of_list_to_map_1.
Qed.

(** A dictionary without nested dictionaries and without dots in its
    keys comes out as it went in. *)
Theorem flatten_plain (data : list (string * value)) :
  NoDup data.*1 → Forall (λ e, Str.contains "." e.1 = false) data →
  _flatten_data (plain data) = list_to_map data.
Proof.
  intros Hnd Hdot. unfold _flatten_data. rewrite flatten_dict_node.
  rewrite foldl_turn_plain by done. by rewrite (right_id_L ∅ (∪)).
Qed.

End Flatten.

Section FlattenExamples.
Import TelemetryPreprocessor.

(** A reading of two sensors. *)
Example flatten_reading :
  _flatten_data
    [("shtc3", Node [("temperature", Leaf (VInt 21)); ("humidity", Leaf (VInt 40))]);
     ("timestamp", Leaf (VStr "2025-01-01T00:00:00Z"))]
  = {[ "shtc3_temperature" := VInt 21; "shtc3_humidity" := VInt 40;
       "timestamp" := VStr "2025-01-01T00:00:00Z" ]}.
Proof. vm_compute. reflexivity. Qed.

(** Two values whose ways spell the same key: the later one stays.  An
    empty nested dictionary disappears. *)
Example flatten_collision :
  _flatten_data [("a", Node [("b", Leaf (VInt 1))]); ("a.b", Leaf (VInt 2))]
  = {[ "a_b" := VInt 2 ]}
  ∧ _flatten_data [("a.b", Leaf (VInt 2)); ("a", Node [("b", Leaf (VInt 1))])]
    = {[ "a_b" := VInt 1 ]}
  ∧ _flatten_data [("a", Node [])] = ∅.
Proof. repeat split; vm_compute; reflexivity. Qed.

Lemma flatten_plain_witness :
  NoDup [("co2", VInt 400); ("timestamp", VStr "t")].*1
  ∧ Forall (λ e : string * value, Str.contains "." e.1 = false)
      [("co2", VInt 400); ("timestamp", VStr "t")]
  ∧ _flatten_data (plain [("co2", VInt 400); ("timestamp", VStr "t")])
    = list_to_map [("co2", VInt 400); ("timestamp", VStr "t")].
Proof.
  assert (H1 : NoDup [("co2", VInt 400); ("timestamp", VStr "t")].*1).
  { cbn. apply NoDup_cons. split; [|apply NoDup_singleton].
    rewrite list_elem_of_singleton. discriminate. }
  assert (H2 : Forall (λ e : string * value, Str.contains "." e.1 = false)
                 [("co2", VInt 400); ("timestamp", VStr "t")])
    by (repeat constructor).
  split; [exact H1|]. split; [exact H2|].
  exact (flatten_plain _ H1 H2).
Defined.

End FlattenExamples.

(** ** The manager: connection and sensor data *)

Section Manager.
Import OfflineStorageService IoTManagerMore.
Context {E : Type} `{IIoTClient E} `{IIoTConnection E}.
Variable env : imports.

(** [connect] of the manager returns what the client's [connect]
    returns.  After a failed attempt nothing is sent and the store is as
    it was.  After a successful one the queue of a file backend goes out,
    whole and in order, when the client accepts every record, and the
    store is empty. *)
Theorem manager_connect (fuel : nat) (e e' : E) (w : list value) :
  (∀ b, client_connect e = (Ok false, e') →
        connect env fuel {| _storage := b; _client := Some e; wire := w |}
        = Some (Ok false, {| _storage := b; _client := Some e'; wire := w |}))
  ∧ (∀ s, client_connect e = (Ok true, e') → is_connected e' = true →
          JSONOfflineStorage.usable s →
          (length (JSONOfflineStorage.held s) < fuel)%nat →
          (deliver (JSONOfflineStorage.held s) e').1
          = replicate (length (JSONOfflineStorage.held s)) true →
          ∃ s',
            connect env fuel
              {| _storage := Some (JSON s); _client := Some e; wire := w |}
            = Some (Ok true,
                    {| _storage := Some (JSON s');
                       _client := Some (deliver (JSONOfflineStorage.held s) e').2;
                       wire := w ++ JSONOfflineStorage.held s |})
            ∧ JSONOfflineStorage.held s' = []).
Proof.
  split.
  - intros b Hconn. unfold connect. cbn [_client]. by rewrite Hconn.
  - intros s Hconn Hc Hu Hfuel Hall.
    destruct (flush_data_accepting env fuel s e' w Hu Hc Hfuel Hall)
      as (s' & Hflush & Hs' & _).
    exists s'. split; [|exact Hs'].
    unfold connect. cbn [_client]. rewrite Hconn.
    unfold flush_if. cbn [_storage wire]. by rewrite Hflush.
Qed.

(** Every reading that the sensor service hands over goes on, flattened:
    to the client when it is connected, and into the store, once, when
    the client is not connected or does not accept it.  No reading is
    held back and nothing is raised. *)
Theorem handle_sensor_data_keeps_reading
    (data : list (string * TelemetryPreprocessor.tree))
    (b : storage) (e : E) (w : list value) :
  usable b →
  ∃ b' e' w',
    _handle_sensor_data env data
      {| _storage := Some b; _client := Some e; wire := w |}
    = (Ok (), {| _storage := Some b'; _client := Some e'; wire := w' |})
    ∧ w' = w ++ (if is_connected e
                 then [VDict (TelemetryPreprocessor._flatten_data data)] else [])
    ∧ if is_connected e
         && (send_telemetry e (VDict (TelemetryPreprocessor._flatten_data data))).1
      then b' = b
      else payloads b'
           = payloads b ++ [VDict (TelemetryPreprocessor._flatten_data data)].
Proof.
  intros Hu. set (msg := VDict (TelemetryPreprocessor._flatten_data data)).
  destruct (add_one env b msg Hu) as (b1 & Hadd & Hp & _).
  unfold _handle_sensor_data, TelemetryPreprocessor.should_send,
    TelemetryPreprocessor.preprocess_data.
  fold msg. unfold IoTManager.send_telemetry. cbn [_client].
  destruct (is_connected e) eqn:Hc; cbn [negb andb].
  - unfold client_send. cbn [fst snd wire].
    destruct (send_telemetry e msg) as [sent e1] eqn:Hsend. cbn [fst negb].
    destruct sent; cbn [negb].
    + by exists b, e1, (w ++ [msg]).
    + exists b1, e1, (w ++ [msg]).
      unfold mbind, M_bind, add_message, handle_exceptions.
      cbn [_storage _client wire]. by rewrite Hadd.
  - exists b1, e, w.
    unfold mbind, M_bind, add_message, handle_exceptions.
    cbn [_storage _client wire]. rewrite Hadd, app_nil_r. done.
Qed.

End Manager.

Section ManagerReconnect.
Import OfflineStorageService IoTManagerMore ProviderClient.
Context `{IIoTClient client}.
Variable env : imports.
Variable int_of_str : string → result Z.

(** [reconnect] of the manager takes the number of retries from
    [sensor.max_retries].  When the configuration has no such value, or
    a number that is not positive, a client that is not connected is not
    connected by it: no attempt is made, nothing is slept, and the
    result is [False]. *)
Theorem manager_reconnect_without_retries (local_config : value) (z : Z)
    (fuel : nat) (b : option storage) (c : client) (w : list value) :
  ConfigLoader.get_nested_value "sensor.max_retries" (VInt 0) local_config
  = VInt z →
  z ≤ 0 → _connected c = false →
  @IoTManagerMore.reconnect client _ (More.provider_connection env) env int_of_str
    local_config fuel {| _storage := b; _client := Some c; wire := w |}
  = Some (Ok false, {| _storage := b; _client := Some c; wire := w |}).
Proof.
  intros Hcfg Hz Hc. unfold IoTManagerMore.reconnect, ConfigLoader.get_max_retries.
  rewrite Hcfg. cbn [ConfigLoader.int _client].
  replace (Z.max 0 z) with 0 by lia.
  cbn [client_reconnect More.provider_connection].
  unfold ProviderClient.reconnect, handle_exceptions, mbind, M_bind, get.
  rewrite Hc. by cbn.
Qed.

End ManagerReconnect.

Section ManagerExamples.
Import OfflineStorageService Samples More.

Lemma manager_connect_witness :
  (client_connect (IIoTConnection := provider_connection all_installed) offline_client
   = (Ok false, (ProviderClient.connect all_installed offline_client).2)
   ∧ @IoTManagerMore.connect _ provider_client (provider_connection all_installed)
       all_installed 4
       {| _storage := Some (JSON (json_holding [m1; m2]));
          _client := Some offline_client; wire := [] |}
     = Some (Ok false,
             {| _storage := Some (JSON (json_holding [m1; m2]));
                _client := Some (ProviderClient.connect all_installed offline_client).2;
                wire := [] |}))
  ∧ (client_connect (IIoTConnection := provider_connection all_installed) online_client
     = (Ok true, (ProviderClient.connect all_installed online_client).2)
     ∧ ∃ s',
         @IoTManagerMore.connect _ provider_client (provider_connection all_installed)
           all_installed 4
           {| _storage := Some (JSON (json_holding [m1; m2]));
              _client := Some online_client; wire := [] |}
         = Some (Ok true,
                 {| _storage := Some (JSON s');
                    _client := Some (ProviderClient.connect all_installed online_client).2;
                    wire := [m1; m2] |})
         ∧ JSONOfflineStorage.held s' = []).
Proof.
  split.
  - assert (H1 : client_connect (IIoTConnection := provider_connection all_installed)
                   offline_client
                 = (Ok false, (ProviderClient.connect all_installed offline_client).2))
      by reflexivity.
    split; [exact H1|].
    exact (proj1 (@manager_connect _ provider_client
                    (provider_connection all_installed) all_installed 4
                    offline_client _ []) _ H1).
  - assert (H1 : client_connect (IIoTConnection := provider_connection all_installed)
                   online_client
                 = (Ok true, (ProviderClient.connect all_installed online_client).2))
      by reflexivity.
    split; [exact H1|].
    exact (proj2 (@manager_connect _ provider_client
                    (provider_connection all_installed) all_installed 4
                    online_client _ [])
             (json_holding [m1; m2]) H1 eq_refl
             ltac:(intros Hd; discriminate Hd) ltac:(vm_compute; lia) eq_refl).
Defined.

Lemma handle_sensor_data_keeps_reading_witness :
  usable (JSON (json_holding [m1]))
  ∧ ∃ b' e' w',
      IoTManagerMore._handle_sensor_data all_installed
        [("shtc3", TelemetryPreprocessor.Node
                     [("temperature", TelemetryPreprocessor.Leaf (VInt 21))])]
        {| _storage := Some (JSON (json_holding [m1]));
           _client := Some {| up := true; script := [false] |}; wire := [] |}
      = (Ok (), {| _storage := Some b'; _client := Some e'; wire := w' |})
      ∧ w' = [] ++ (if is_connected {| up := true; script := [false] |}
                    then [VDict (TelemetryPreprocessor._flatten_data
                                   [("shtc3", TelemetryPreprocessor.Node
                                      [("temperature",
                                        TelemetryPreprocessor.Leaf (VInt 21))])])]
                    else [])
      ∧ if is_connected {| up := true; script := [false] |}
           && (send_telemetry {| up := true; script := [false] |}
                 (VDict (TelemetryPreprocessor._flatten_data
                           [("shtc3", TelemetryPreprocessor.Node
                              [("temperature",
                                TelemetryPreprocessor.Leaf (VInt 21))])]))).1
        then b' = JSON (json_holding [m1])
        else payloads b'
             = payloads (JSON (json_holding [m1]))
               ++ [VDict (TelemetryPreprocessor._flatten_data
                            [("shtc3", TelemetryPreprocessor.Node
                               [("temperature",
                                 TelemetryPreprocessor.Leaf (VInt 21))])])].
Proof.
  assert (H1 : usable (JSON (json_holding [m1]))) by (intros Hd; discriminate Hd).
  split; [exact H1|].
  exact (handle_sensor_data_keeps_reading all_installed _ _
           {| up := true; script := [false] |} [] H1).
Defined.

(** A reading that the client refuses is stored in its flattened
    form. *)
Example handle_sensor_data_stores :
  (IoTManagerMore._handle_sensor_data all_installed
     [("shtc3", TelemetryPreprocessor.Node
                  [("temperature", TelemetryPreprocessor.Leaf (VInt 21))])]
     {| _storage := Some (JSON fresh_json);
        _client := Some {| up := true; script := [false] |}; wire := [] |}).2
  = {| _storage := Some (JSON (json_holding
                                 [VDict {[ "shtc3_temperature" := VInt 21 ]}]));
       _client := Some {| up := true; script := [] |};
       wire := [VDict {[ "shtc3_temperature" := VInt 21 ]}] |}.
Proof. vm_compute. reflexivity. Qed.

Lemma manager_reconnect_without_retries_witness :
  ConfigLoader.get_nested_value "sensor.max_retries" (VInt 0) (VDict ∅) = VInt 0
  ∧ 0 ≤ 0
  ∧ ProviderClient._connected offline_client = false
  ∧ @IoTManagerMore.reconnect _ provider_client (provider_connection all_installed)
      all_installed no_int (VDict ∅) 4
      {| _storage := Some (JSON (json_holding [m1]));
         _client := Some offline_client; wire := [] |}
    = Some (Ok false, {| _storage := Some (JSON (json_holding [m1]));
                         _client := Some offline_client; wire := [] |}).
Proof.
  assert (H1 : ConfigLoader.get_nested_value "sensor.max_retries" (VInt 0) (VDict ∅)
               = VInt 0) by reflexivity.
  assert (H2 : 0 ≤ 0) by lia.
  assert (H3 : ProviderClient._connected offline_client = false) by reflexivity.
  split; [exact H1|]. split; [exact H2|]. split; [exact H3|].
  exact (@manager_reconnect_without_retries provider_client all_installed no_int
           (VDict ∅) 0 4 _ offline_client [] H1 H2 H3).
Defined.

End ManagerExamples.

(** ** Store and forward, end to end *)

Section StoreAndForward.
Import OfflineStorageService.
Context {E : Type} `{IIoTClient E}.
Variable env : imports.

Lemma parse_rows_all (l : list (Z * cell)) :
  length (SQLiteOfflineStorage.parse_rows l) = length l →
  take 10 l ≠ [] → SQLiteOfflineStorage.parse_rows (take 10 l) ≠ [].
Proof.
  destruct l as [|r l]; [done|]. intros Hlen _.
  cbn [take SQLiteOfflineStorage.parse_rows] in *.
  destruct (SQLiteOfflineStorage.parse_row r); [done|].
  pose proof (length_parse_rows l). cbn [length] in Hlen. lia.
Qed.

(** A store in which every record decodes and whose next batch is empty
    holds nothing. *)
Lemma empty_batch (b : storage) :
  usable b → length (drained b) = stored_count b →
  (load_messages env 10 b).1 = Ok [] → stored_count b = 0%nat.
Proof.
  destruct b as [s|d]; intros Hu Hlen; unfold load_messages, dispatch.
  - rewrite (load_messages_held env s 10) by done. cbn [fst Z.leb Z.compare].
    cbn [stored_count]. intros [= Hs].
    destruct (JSONOfflineStorage.held s); [done|discriminate].
  - destruct d as [|[t|]]; try done. rewrite load_messages_rows.
    cbn [fst Z.ltb Z.compare stored_count SQLiteOfflineStorage.rows_of].
    change (Z.to_nat 10) with 10%nat. intros [= Ht].
    destruct (SQLiteOfflineStorage.rows t) as [|r l] eqn:Hrows; [done|].
    exfalso. revert Ht. apply parse_rows_all; [|done].
    cbn [drained stored_count] in Hlen.
    unfold SQLiteOfflineStorage.drained in Hlen.
    cbn [SQLiteOfflineStorage.rows_of] in Hlen. by rewrite Hrows in Hlen.
Qed.

(** When every record of the store decodes and the endpoint accepts
    every record, a flush sends all of them and leaves none. *)
Lemma flush_data_all (fuel : nat) (b : storage) (e : E) (w : list value) :
  usable b → is_connected e = true → (length (drained b) < fuel)%nat →
  length (drained b) = stored_count b →
  (deliver (drained b) e).1 = replicate (length (drained b)) true →
  ∃ b',
    flush_data env fuel {| _storage := Some b; _client := Some e; wire := w |}
    = Some (Ok (), {| _storage := Some b';
                      _client := Some (deliver (drained b) e).2;
                      wire := w ++ drained b |})
    ∧ stored_count b' = 0%nat.
Proof.
  intros Hu Hc Hfuel Hlen Hall.
  destruct (flush_data_spec env fuel b e w Hu Hc Hfuel)
    as (k & n & b' & e' & Hflush & Hdel & Hkn & Hn & Hd & Hcount & Hu' & Hend).
  assert (Hnk : n = k).
  { pose proof (deliver_take n (drained b) e) as Ht. rewrite Hdel, Hall in Ht.
    cbn [fst] in Ht. rewrite take_replicate in Ht.
    destruct (decide (n = k)) as [|Hne]; [done|]. exfalso.
    assert (Hin : false ∈ replicate k true ++ replicate (n - k) false).
    { apply elem_of_app. right. apply elem_of_replicate. split; [done|lia]. }
    rewrite Ht in Hin. by apply elem_of_replicate in Hin as [? _]. }
  subst n. specialize (Hend eq_refl).
  assert (Hlen' : length (drained b') = stored_count b').
  { rewrite Hd, length_drop. lia. }
  pose proof (empty_batch b' Hu' Hlen' Hend) as Hzero.
  assert (Hk : k = length (drained b)) by lia.
  subst k. rewrite take_ge in Hflush, Hdel by lia.
  exists b'. split; [|exact Hzero].
  rewrite Hflush. do 4 f_equal. by rewrite Hdel.
Qed.

Lemma parse_rows_objects (l : list (Z * cell)) :
  Forall (λ r : Z * cell, ∃ payload, r.2 = Enc (VDict payload)) l →
  SQLiteOfflineStorage.parse_rows l
  = (λ r : Z * cell,
       SQLiteOfflineStorage.with_db_id r.1
         match r.2 with Enc v => v | Bad _ => VNone end) <$> l.
Proof.
  induction 1 as [|[i c] l (payload & Hr) _ IH]; [done|].
  cbn [snd] in Hr. subst c.
  cbn [SQLiteOfflineStorage.parse_rows fmap list_fmap].
  unfold SQLiteOfflineStorage.parse_row at 1.
  cbn [json_loads setitem fst snd SQLiteOfflineStorage.with_db_id].
  by rewrite IH.
Qed.

(** When every row of the table decodes to an object and the endpoint
    accepts every record, a flush of the SQL backend sends all records,
    oldest first, each with its [_db_id], and leaves the table without
    rows. *)
Theorem sqlite_flush_sends_whole_queue (fuel : nat)
    (t : SQLiteOfflineStorage.table) (e : E) (w : list value) :
  SQLiteOfflineStorage.wf_table t → is_connected e = true →
  Forall (λ r : Z * cell, ∃ payload, r.2 = Enc (VDict payload))
    (SQLiteOfflineStorage.rows t) →
  (length (SQLiteOfflineStorage.rows t) < fuel)%nat →
  (deliver (drained (SQLite (SQLiteOfflineStorage.DbFile (Some t)))) e).1
  = replicate (length (SQLiteOfflineStorage.rows t)) true →
  ∃ b',
    flush_data env fuel
      {| _storage := Some (SQLite (SQLiteOfflineStorage.DbFile (Some t)));
         _client := Some e; wire := w |}
    = Some (Ok (),
            {| _storage := Some b';
               _client :=
                 Some (deliver (drained (SQLite (SQLiteOfflineStorage.DbFile
                                                   (Some t)))) e).2;
               wire := w ++ drained (SQLite (SQLiteOfflineStorage.DbFile (Some t))) |})
    ∧ length (drained (SQLite (SQLiteOfflineStorage.DbFile (Some t))))
      = length (SQLiteOfflineStorage.rows t)
    ∧ stored_count b' = 0%nat.
Proof.
  intros Hwf Hc Hrows Hfuel Hall.
  assert (Hlen : length (drained (SQLite (SQLiteOfflineStorage.DbFile (Some t))))
                 = length (SQLiteOfflineStorage.rows t)).
  { cbn [drained]. unfold SQLiteOfflineStorage.drained.
    cbn [SQLiteOfflineStorage.rows_of].
    by rewrite parse_rows_objects, length_fmap. }
  destruct (flush_data_all fuel (SQLite (SQLiteOfflineStorage.DbFile (Some t))) e w)
    as (b' & Hflush & Hzero).
  - exact Hwf.
  - exact Hc.
  - by rewrite Hlen.
  - exact Hlen.
  - by rewrite Hlen.
  - exists b'. split; [exact Hflush|]. split; [exact Hlen|exact Hzero].
Qed.

End StoreAndForward.

Section StoreAndForwardManager.
Import OfflineStorageService.
Context {E : Type} `{IIoTClient E} `{IIoTConnection E}.
Variable env : imports.

(** A message given to [send_telemetry] while the client is not
    connected is kept in the file backend, and goes out at the next
    [connect] that succeeds, after the records that were waiting before
    it; each record is sent once, and the store is empty afterwards. *)
Theorem store_and_forward (fuel : nat) (s : JSONOfflineStorage.state)
    (e e' : E) (w : list value) (data : value) :
  JSONOfflineStorage.usable s → is_connected e = false →
  client_connect e = (Ok true, e') → is_connected e' = true →
  (length (JSONOfflineStorage.held s) + 1 < fuel)%nat →
  (deliver (JSONOfflineStorage.held s ++ [data]) e').1
  = replicate (length (JSONOfflineStorage.held s) + 1) true →
  ∃ w1 s',
    IoTManager.send_telemetry env data
      {| _storage := Some (JSON s); _client := Some e; wire := w |}
    = (Ok false, w1)
    ∧ IoTManagerMore.connect env fuel w1
      = Some (Ok true,
              {| _storage := Some (JSON s');
                 _client := Some (deliver (JSONOfflineStorage.held s ++ [data]) e').2;
                 wire := w ++ JSONOfflineStorage.held s ++ [data] |})
    ∧ JSONOfflineStorage.held s' = [].
Proof.
  intros Hu Hoff Hconn Hon Hfuel Hall.
  set (s1 := JSONOfflineStorage.written s (JSONOfflineStorage.held s ++ [data])).
  assert (Hheld : JSONOfflineStorage.held s1 = JSONOfflineStorage.held s ++ [data])
    by apply held_written.
  destruct (flush_data_accepting env fuel s1 e' w) as (s' & Hflush & Hs' & _).
  - apply usable_written.
  - exact Hon.
  - rewrite Hheld, length_app. simpl. lia.
  - rewrite Hheld, length_app. exact Hall.
  - exists {| _storage := Some (JSON s1); _client := Some e; wire := w |}, s'.
    split; [|split; [|exact Hs']].
    + unfold IoTManager.send_telemetry. cbn [_client]. rewrite Hoff. cbn [negb].
      unfold mbind, M_bind, add_message, handle_exceptions.
      cbn [_storage _client wire]. unfold add_messages, dispatch.
      by rewrite add_messages_written.
    + unfold IoTManagerMore.connect. cbn [_client]. rewrite Hconn.
      unfold IoTManagerMore.flush_if. cbn [_storage wire].
      rewrite Hflush. by rewrite Hheld.
Qed.

End StoreAndForwardManager.

Section StoreAndForwardExamples.
Import OfflineStorageService Samples More.

Lemma sqlite_flush_sends_whole_queue_witness :
  SQLiteOfflineStorage.wf_table
    {| SQLiteOfflineStorage.rows := [(4, Enc m1); (7, Enc m2)];
       SQLiteOfflineStorage.seq := 9 |}
  ∧ is_connected (accepting 2) = true
  ∧ Forall (λ r : Z * cell, ∃ payload, r.2 = Enc (VDict payload))
      [(4, Enc m1); (7, Enc m2)]
  ∧ (length [(4, Enc m1); (7, Enc m2)] < 3)%nat
  ∧ ∃ b',
      flush_data all_installed 3
        {| _storage := Some (SQLite (SQLiteOfflineStorage.DbFile (Some
              {| SQLiteOfflineStorage.rows := [(4, Enc m1); (7, Enc m2)];
                 SQLiteOfflineStorage.seq := 9 |})));
           _client := Some (accepting 2); wire := [] |}
      = Some (Ok (),
              {| _storage := Some b'; _client := Some (accepting 0);
                 wire := [SQLiteOfflineStorage.with_db_id 4 m1;
                          SQLiteOfflineStorage.with_db_id 7 m2] |})
      ∧ length [SQLiteOfflineStorage.with_db_id 4 m1;
                SQLiteOfflineStorage.with_db_id 7 m2] = 2%nat
      ∧ stored_count b' = 0%nat.
Proof.
  assert (H1 : SQLiteOfflineStorage.wf_table
                 {| SQLiteOfflineStorage.rows := [(4, Enc m1); (7, Enc m2)];
                    SQLiteOfflineStorage.seq := 9 |}).
  { split; simpl.
    - constructor; [repeat constructor|].
      apply Forall_cons. split; [lia|constructor].
    - repeat (apply Forall_cons; split; [lia|]). constructor. }
  assert (H2 : is_connected (accepting 2) = true) by reflexivity.
  assert (H3 : Forall (λ r : Z * cell, ∃ payload, r.2 = Enc (VDict payload))
                 [(4, Enc m1); (7, Enc m2)]).
  { repeat (apply Forall_cons; split; [eexists; reflexivity|]). constructor. }
  assert (H4 : (length [(4, Enc m1); (7, Enc m2)] < 3)%nat) by (simpl; lia).
  split; [exact H1|]. split; [exact H2|]. split; [exact H3|]. split; [exact H4|].
  exact (sqlite_flush_sends_whole_queue all_installed 3 _ (accepting 2) []
           H1 H2 H3 H4 eq_refl).
Defined.

Lemma store_and_forward_witness :
  JSONOfflineStorage.usable (json_holding [m1])
  ∧ is_connected (IIoTClient := provider_client) online_client = false
  ∧ client_connect (IIoTConnection := provider_connection all_installed) online_client
    = (Ok true, (ProviderClient.connect all_installed online_client).2)
  ∧ ∃ w1 s',
      @IoTManager.send_telemetry _ provider_client all_installed m2
        {| _storage := Some (JSON (json_holding [m1]));
           _client := Some online_client; wire := [] |}
      = (Ok false, w1)
      ∧ @IoTManagerMore.connect _ provider_client
          (provider_connection all_installed) all_installed 4 w1
        = Some (Ok true,
                {| _storage := Some (JSON s');
                   _client := Some (ProviderClient.connect all_installed
                                      online_client).2;
                   wire := [m1; m2] |})
      ∧ JSONOfflineStorage.held s' = [].
Proof.
  assert (H1 : JSONOfflineStorage.usable (json_holding [m1]))
    by (intros Hd; discriminate Hd).
  assert (H2 : is_connected (IIoTClient := provider_client) online_client = false)
    by reflexivity.
  assert (H3 : client_connect (IIoTConnection := provider_connection all_installed)
                 online_client
               = (Ok true, (ProviderClient.connect all_installed online_client).2))
    by reflexivity.
  split; [exact H1|]. split; [exact H2|]. split; [exact H3|].
  exact (@store_and_forward _ provider_client (provider_connection all_installed)
           all_installed 4 (json_holding [m1]) online_client _ [] m2
           H1 H2 H3 eq_refl ltac:(vm_compute; lia) eq_refl).
Defined.

End StoreAndForwardExamples.
